(** * Orchestration core of the student multi-LLM chatbot (main.py)

    A shallow embedding of the request dispatcher [chat], the keyword
    classifier [is_report_request], the process-wide plan slot
    [last_plan_for_a] and the five prompt-chaining handlers, followed by
    the properties the specification states about them.

    Conventions.
    - A Python [str] is a sequence of Unicode code points: [str := list N].
      String literals of the (UTF-8 encoded) source file are written as
      Rocq string literals and decoded by [u8].
    - The four provider adapters ([call_perplexity], [call_gpt],
      [call_gemini], [call_claude]) talk to remote services.  They are
      modelled by a [backend] that answers each call, given the calls
      made so far, with a text, with [None] (a response that carries no
      text) or with a raised exception; every call is appended to a log
      kept next to the plan slot.
    - A handler is a computation in a state-and-exception monad over that
      world. *)

From Stdlib Require Import List NArith Ascii String Bool Lia.
Import ListNotations.

Local Open Scope N_scope.
Local Open Scope list_scope.

(* ================================================================= *)
(** ** Python strings *)

Definition codepoint : Type := N.
Definition str : Type := list codepoint.

Fixpoint bytes_of_string (s : string) : list N :=
  match s with
  | EmptyString => []
  | String a rest => N_of_ascii a :: bytes_of_string rest
  end.

(** UTF-8 decoding of a source literal (1- to 4-byte sequences); a
    truncated trailing sequence is dropped. *)
Fixpoint utf8_decode (bs : list N) : str :=
  match bs with
  | [] => []
  | b0 :: t0 =>
    if b0 <? 128 then b0 :: utf8_decode t0
    else
      match t0 with
      | [] => []
      | b1 :: t1 =>
        if b0 <? 224 then
          ((b0 mod 32) * 64 + b1 mod 64) :: utf8_decode t1
        else
          match t1 with
          | [] => []
          | b2 :: t2 =>
            if b0 <? 240 then
              ((b0 mod 16) * 4096 + (b1 mod 64) * 64 + b2 mod 64)
                :: utf8_decode t2
            else
              match t2 with
              | [] => []
              | b3 :: t3 =>
                ((b0 mod 8) * 262144 + (b1 mod 64) * 4096
                 + (b2 mod 64) * 64 + b3 mod 64) :: utf8_decode t3
              end
          end
      end
  end.

Definition u8 (s : string) : str := utf8_decode (bytes_of_string s).
Arguments u8 s%_string.

(** The character U+0022, written apart from the literals. *)
Definition dquote : str := [34].

(** [s == t] on strings. *)
Fixpoint str_eqb (s t : str) : bool :=
  match s, t with
  | [], [] => true
  | a :: s', b :: t' => (a =? b) && str_eqb s' t'
  | _, _ => false
  end.

(** [s.startswith(prefix)]. *)
Fixpoint startswith (s prefix : str) {struct prefix} : bool :=
  match prefix, s with
  | [], _ => true
  | p :: prefix', c :: s' => (p =? c) && startswith s' prefix'
  | _ :: _, [] => false
  end.

(** [needle in hay]: substring containment, code point by code point. *)
Fixpoint str_in (needle hay : str) : bool :=
  startswith hay needle ||
  match hay with
  | [] => false
  | _ :: hay' => str_in needle hay'
  end.

(* ================================================================= *)
(** ** Constants *)

(** [ModeType = Literal["A", "B", "C", "D"]]. *)
Definition ModeType : list str := [u8 "A"; u8 "B"; u8 "C"; u8 "D"].

Definition REPORT_KEYWORDS : list str :=
  [ u8 "보고서";
    u8 "보고 서";
    u8 "보고서를";
    u8 "보고서로";
    u8 "작성해";
    u8 "작성해줘";
    u8 "작성해 줘" ].

(* ================================================================= *)
(** ** Helper: the intent classifier *)

(** [any(keyword in text for keyword in REPORT_KEYWORDS)]. *)
Definition is_report_request (text : str) : bool :=
  existsb (fun keyword => str_in keyword text) REPORT_KEYWORDS.


(* ================================================================= *)
(** ** Providers, exceptions and the world *)

(** The four remote text generators, named after their adapters. *)
Inductive provider : Type :=
| Perplexity   (* call_perplexity: search / retrieval *)
| Gpt          (* call_gpt: reasoning *)
| Gemini       (* call_gemini: synthesis *)
| Claude.      (* call_claude: long-form writing *)

(** A raised Python exception, kept by its description [str(e)]. *)
Record PyException : Type := { exc_str : str }.

Inductive result (A : Type) : Type :=
| Returned (a : A)
| Raised (e : PyException).
Arguments Returned {A} a.
Arguments Raised {A} e.

(** One provider call as seen from outside: who was called, with which
    prompt, and what came back. *)
Record call : Type := {
  callee : provider;
  prompt : str;
  outcome : result (option str)
}.

(** The process state the handlers can touch: the global
    [last_plan_for_a] and the log of provider calls, oldest first. *)
Record world : Type := {
  last_plan_for_a : option str;
  calls : list call
}.

(** [last_plan_for_a: Optional[str] = None] at start-up. *)
Definition initial_world : world :=
  {| last_plan_for_a := None; calls := [] |}.

(** A backend stands for the four remote services behind the adapters.
    It answers a call knowing every call made before it, so it may be
    stateful or scripted.  An adapter returns what the response object
    holds as its text ([message.content], [resp.text]): a string, or
    [None] when the response carries no text, although the adapters are
    annotated [-> str]; or the call raises (network, authentication,
    quota, an empty [choices] list, ...).  [call_claude] joins the text
    blocks of the message and so never returns [None]; the statements
    below hold for every backend, hence also for those that obey this. *)
Definition backend : Type :=
  list call -> provider -> str -> result (option str).

(** A backend whose answer depends on provider and prompt only. *)
Definition stateless (r : provider -> str -> result (option str)) : backend :=
  fun _ => r.

(** [f"{v}"] for a value that is a string or [None]. *)
Definition format_value (v : option str) : str :=
  match v with
  | Some s => s
  | None => u8 "None"
  end.

(** ** The monad of handlers *)

Definition M (A : Type) : Type := world -> result A * world.

Definition ret {A} (a : A) : M A := fun w => (Returned a, w).

Definition bind {A B} (m : M A) (k : A -> M B) : M B :=
  fun w =>
    match m w with
    | (Returned a, w') => k a w'
    | (Raised e, w') => (Raised e, w')
    end.

Notation "x <- m ;; k" := (bind m (fun x => k))
  (at level 61, m at next level, right associativity).
Notation "m ;;; k" := (bind m (fun _ => k))
  (at level 61, right associativity).

(** Reading and assigning the global. *)
Definition read_last_plan : M (option str) :=
  fun w => (Returned (last_plan_for_a w), w).

Definition write_last_plan (plan : option str) : M unit :=
  fun w => (Returned tt, {| last_plan_for_a := plan; calls := calls w |}).

Definition log_call (c : call) (w : world) : world :=
  {| last_plan_for_a := last_plan_for_a w; calls := calls w ++ [c] |}.

(* ================================================================= *)
(** ** Start-up: the API keys *)

(** The process environment as [os.getenv] sees it once [load_dotenv()]
    has run: a variable is unset ([None]) or holds a string. *)
Definition environ : Type := str -> option str.

(** Truth value of an [Optional[str]]: [None] and the empty string are
    false. *)
Definition truthy (v : option str) : bool :=
  match v with
  | Some (_ :: _) => true
  | _ => false
  end.

(** [first and ... and last]: the first operand that is false, or the
    last one. *)
Fixpoint py_and (first : option str) (others : list (option str))
  : option str :=
  match others with
  | [] => first
  | next :: rest => if truthy first then py_and next rest else first
  end.

Record api_keys : Type := {
  OPENAI_API_KEY : option str;
  GEMINI_API_KEY : option str;
  ANTHROPIC_API_KEY : option str;
  PERPLEXITY_API_KEY : option str
}.

Definition MISSING_KEYS_MESSAGE : str :=
  u8 ".env에 모든 API 키(OPENAI, GEMINI, ANTHROPIC, PERPLEXITY)가 설정되어 있는지 확인하세요.".

(** The module-level statements that read the four keys and raise
    [RuntimeError] unless all of them are there. *)
Definition load_api_keys (getenv : environ) : result api_keys :=
  let openai := getenv (u8 "OPENAI_API_KEY") in
  let gemini := getenv (u8 "GEMINI_API_KEY") in
  let anthropic := getenv (u8 "ANTHROPIC_API_KEY") in
  let perplexity := getenv (u8 "PERPLEXITY_API_KEY") in
  if negb (truthy (py_and openai [gemini; anthropic; perplexity])) then
    Raised {| exc_str := MISSING_KEYS_MESSAGE |}
  else
    Returned {| OPENAI_API_KEY := openai;
                GEMINI_API_KEY := gemini;
                ANTHROPIC_API_KEY := anthropic;
                PERPLEXITY_API_KEY := perplexity |}.

(* ================================================================= *)
(** ** Prompt templates

    Each f-string of the handlers, with its interpolation points as
    arguments.  A triple-quoted template starts and ends with a line
    break. *)

(** Stage 1 of [handle_mode_a_plan]: the prompt given to [call_perplexity]. *)
Definition plan_bg_prompt (user_input : str) : str :=
  u8 "
고등학생 수준에서 이해할 수 있게, 아래 탐구 주제의 배경지식을 정리해줘.

탐구 주제: "
  ++ user_input
  ++ u8 "
".

(** Stage 2 of [handle_mode_a_plan]: the prompt given to [call_gpt]. *)
Definition plan_ideas_prompt (user_input bg : str) : str :=
  u8 "
[탐구 주제]
"
  ++ user_input
  ++ u8 "

[배경지식]
"
  ++ bg
  ++ u8 "

위 정보를 바탕으로, 고등학생 수행평가용 탐구 과제 후보를 설계해줘.
- 탐구 질문/가설
- 탐구 방법(실험 또는 조사)
- 난이도(쉬움/보통/어려움)

이런 아이디어를 3~5개 번호 목록(1, 2, 3, ...)으로 작성해줘.
".

(** Stage 3 of [handle_mode_a_plan]: the prompt given to [call_gemini]. *)
Definition plan_plan_prompt (user_input bg ideas : str) : str :=
  u8 "
너는 고등학생 탐구보고서 지도 교사야.

[탐구 주제]
"
  ++ user_input
  ++ u8 "

[배경지식 요약]
"
  ++ bg
  ++ u8 "

[가능한 탐구 방향 아이디어들]
"
  ++ ideas
  ++ u8 "

위 내용을 바탕으로,
1. 가장 적절해 보이는 탐구 방향 1~2개를 추천하고,
2. 각 방향에 대해 다음 형식으로만 정리해줘.

- 탐구 방향 번호 (예: 후보 2번)
- 탐구 제목
- 탐구 목적
- 탐구 질문/가설
- 간단한 탐구 방법 개요

아직 보고서 본문을 쓰지는 말고,
'어떤 방향으로 탐구할지'만 정리해줘.

마지막 줄에 다음 문장을 꼭 붙여줘:

"
  ++ dquote
  ++ u8 "➡ 이 중에서 선택한 번호와 함께 '이제 이 중에서 X번으로 탐구 보고서 작성해줘'라고 요청하면, 이에 맞는 탐구 보고서를 작성해 줄 수 있습니다."
  ++ dquote
  ++ u8 "
".

(** Stage 1 of [handle_mode_a_report]: the prompt given to [call_gemini]. *)
Definition report_outline_prompt (user_input previous_answer : str) : str :=
  u8 "
너는 고등학생 탐구보고서 작성 도우미야.

[이전 단계에서 생성된 탐구 방향/계획]
"
  ++ previous_answer
  ++ u8 "

[사용자의 추가 요청]
"
  ++ user_input
  ++ u8 "

1. 사용자가 어느 탐구 방향(몇 번)을 선택했는지 추론하고,
2. 그 방향에 맞는 탐구보고서의 '개요(목차 + 각 항목 요약)'를 먼저 만들어줘.

개요 형식 예시:
1. 서론 (문제 제기, 탐구 동기)
2. 이론적 배경
3. 탐구 방법
4. 탐구 결과
5. 결론 및 느낀 점

각 항목 아래에, 어떤 내용을 쓸지 2~3문장 정도로 간단히 설명해줘.
아직 문단 전체를 길게 쓰지는 마.
".

(** Stage 2 of [handle_mode_a_report]: the prompt given to [call_claude]. *)
Definition report_final_prompt (outline : str) : str :=
  u8 "
아래는 고등학생 과학 탐구보고서의 개요야.

[보고서 개요]
"
  ++ outline
  ++ u8 "

이 개요를 바탕으로, 실제 탐구보고서 초안을 작성해줘.
요구사항:
- 고등학생이 제출하는 수행평가/탐구보고서 톤
- 서론 / 이론적 배경 / 탐구 방법 / 탐구 결과(예상 결과 가능) / 결론 및 느낀 점 순서
- 각 항목은 최소 2~3문단 정도로 작성
- 너무 전문 용어만 남발하지 말고, 필요하면 괄호 안에 간단한 설명

전체를 하나의 보고서처럼 자연스럽게 이어지게 써줘.
".

(** Stage 1 of [handle_mode_b_essay]: the prompt given to [call_perplexity]. *)
Definition essay_facts_prompt (user_input : str) : str :=
  u8 "
아래 논설문 주제와 관련해서, 사실 자료/통계/사례를 한국어로 간단히 정리해줘.
논설문 주제: "
  ++ user_input
  ++ u8 "
".

(** Stage 2 of [handle_mode_b_essay]: the prompt given to [call_gpt]. *)
Definition essay_draft_prompt (user_input facts : str) : str :=
  u8 "
너는 고등학생 논설문을 도와주는 한국어 선생님이야.

[논설문 주제]
"
  ++ user_input
  ++ u8 "

[참고 자료]
"
  ++ facts
  ++ u8 "

요구 사항:
- 서론 / 본론(2~3개의 논거) / 결론 구조
- 문어체, 존댓말
- 분량: 대략 800~1200자

위 조건에 맞는 논설문 초안을 작성해줘.
".

(** Stage 3 of [handle_mode_b_essay]: the prompt given to [call_gemini]. *)
Definition essay_checked_prompt (draft : str) : str :=
  u8 "
다음은 고등학생이 제출할 논설문 초안이야.

[초안]
"
  ++ draft
  ++ u8 "

너의 역할:
1. 논리 전개가 자연스러운지 확인하고, 어색하거나 모순된 부분을 지적 후 수정.
2. 과도한 표현이나 사실과 다를 수 있는 부분은 완화해서 표현.
3. 전체 구조(서론-본론-결론)는 유지하되, 문장의 흐름만 살짝 정리.

수정된 논설문만 한국어로 보여줘.
".

(** Stage 4 of [handle_mode_b_essay]: the prompt given to [call_claude]. *)
Definition essay_final_prompt (checked : str) : str :=
  u8 "
아래는 논리적으로 점검된 고등학생 논설문이야.

[논설문]
"
  ++ checked
  ++ u8 "

이 글의:
- 문장을 조금 더 자연스럽고 유려하게 다듬고
- 문단 간 연결을 부드럽게 이어주고
- 전체 톤은 '고등학생 수준의 정중한 논설문'으로 유지해줘.

최종 수정본만 보여줘.
".

(** Stage 1 of [handle_mode_c_ideas]: the prompt given to [call_gpt]. *)
Definition ideas_raw_prompt (user_input : str) : str :=
  u8 "
너는 고등학생을 돕는 아이디어 브레인스토밍 도우미야.

[사용자 요청]
"
  ++ user_input
  ++ u8 "

위 요청을 바탕으로, 서로 충분히 다른 아이디어를 최소 20개 bullet 목록으로 만들어줘.
각 아이디어는 한 줄 요약으로 작성해.
".

(** Stage 2 of [handle_mode_c_ideas]: the prompt given to [call_gemini]. *)
Definition ideas_refined_prompt (user_input raw_ideas : str) : str :=
  u8 "
너는 창의적이면서도 현실적인 아이디어를 골라주는 전문가야.

[사용자 요청]
"
  ++ user_input
  ++ u8 "

[GPT가 만든 아이디어 20개]
"
  ++ raw_ideas
  ++ u8 "

위 아이디어 중에서,
- 실현 가능성이 높고
- 교육적으로 의미 있고
- 어느 정도 창의적인 것

을 중심으로 10개만 고르는 동시에,
각 아이디어에 대해:
- 아이디어 제목
- 실현 가능성: 높음/보통/낮음
- 설명: 1~2문장
- 확장 아이디어: 1~2개 bullet

형식으로 정리해줘.
".

(** Stage 3 of [handle_mode_c_ideas]: the prompt given to [call_claude]. *)
Definition ideas_final_prompt (refined : str) : str :=
  u8 "
아래는 고등학생을 위한 아이디어 목록이야.

"
  ++ refined
  ++ u8 "

이 목록을:
- 문장만 조금 더 자연스럽게 다듬고
- 번호와 구성을 보기 좋게 정리해줘.
내용은 크게 바꾸지 말고 표현만 정리해줘.
".

(** Stage 1 of [handle_mode_d_research]: the prompt given to [call_perplexity]. *)
Definition research_px_prompt (user_input : str) : str :=
  u8 "
아래 주제에 대해 웹 자료를 조사해서,
핵심 내용과 중요한 포인트를 한국어로 요약해줘.
필요하면 간단한 출처도 함께 적어줘.

주제: "
  ++ user_input
  ++ u8 "
".

(** Stage 2 of [handle_mode_d_research]: the prompt given to [call_gemini]. *)
Definition research_final_prompt (px_answer : str) : str :=
  u8 "
아래는 웹에서 조사된 내용이야.

[조사 내용]
"
  ++ px_answer
  ++ u8 "

이 내용을 고등학생이 이해하기 쉬운 수준으로,
- 소제목 3~5개
- 각 소제목 아래 bullet 2~4개

형태로 한국어로 정리해줘.
너무 어려운 전문 용어는 간단한 설명을 함께 붙여줘.
".

(** [detail] of the HTTP 500 raised by [chat]; [{e}] formats as [str(e)]. *)
Definition error_detail (e : PyException) : str :=
  u8 "서버 내부 오류가 발생했습니다(AI 호출 또는 처리 중 문제): "
  ++ exc_str e.

(** The notice returned when a report is asked for before any plan exists. *)
Definition NO_PLAN_NOTICE : str :=
  u8 "[알림] 아직 1단계 탐구 방향/계획이 저장되어 있지 않습니다.
먼저 같은 주제로 A 모드에서 탐구 방향을 요청해 주세요.

예시:
A 모드에서
  "
  ++ dquote
  ++ u8 "미세플라스틱과 수질 오염을 주제로 과학 탐구 방향을 설계해줘"
  ++ dquote
  ++ u8 " 라고 먼저 요청한 뒤,
  그 다음에 "
  ++ dquote
  ++ u8 "이제 위에서 추천한 2번 방향으로 탐구 보고서 작성해줘"
  ++ dquote
  ++ u8 " 라고 요청하면 됩니다.".

(* ================================================================= *)
(** ** Request schema *)

(** [class ChatRequest(BaseModel)]: [mode: ModeType], [user_input: str]. *)
Record ChatRequest : Type := {
  mode : str;
  user_input : str
}.

(** Model validation of a body whose two fields are strings: the
    [Literal] field accepts exactly the listed values, [user_input] is
    any string. *)
Definition validate_ChatRequest (raw_mode raw_user_input : str)
  : option ChatRequest :=
  if existsb (str_eqb raw_mode) ModeType
  then Some {| mode := raw_mode; user_input := raw_user_input |}
  else None.

(** A field of the JSON body as it arrives. *)
Inductive body_field : Type :=
| Absent                 (* the key is missing *)
| NotAString             (* null, a number, a boolean, a list, an object *)
| AString (s : str).

(** Model validation of any body: both fields are required and both
    must be strings (the [Literal] values are strings, and a [str] field
    takes nothing else from JSON). *)
Definition validate_body (mode_field user_input_field : body_field)
  : option ChatRequest :=
  match mode_field, user_input_field with
  | AString raw_mode, AString raw_user_input =>
      validate_ChatRequest raw_mode raw_user_input
  | _, _ => None
  end.

Section Handlers.

Variable remote : backend.

(** The error raised when a [ChatResponse] is built with an answer that
    is not a string.  Its description is the validation library's, not
    this program's, so it is left open. *)
Variable invalid_answer : PyException.

(** One remote call: ask the backend, log the call, return or raise.
    The adapters differ only in the client, model name and sampling
    options they pass along with the prompt ([call_gpt] also sends the
    fixed system message); to the handlers each is prompt in, and the
    text of the response, if any, out. *)
Definition call_provider (p : provider) (q : str) : M (option str) :=
  fun w =>
    let o := remote (calls w) p q in
    (o, log_call {| callee := p; prompt := q; outcome := o |} w).

Definition call_gpt : str -> M (option str) := call_provider Gpt.
Definition call_gemini : str -> M (option str) := call_provider Gemini.
Definition call_claude : str -> M (option str) := call_provider Claude.
Definition call_perplexity : str -> M (option str) :=
  call_provider Perplexity.

(* ================================================================= *)
(** ** The handlers, one per pipeline *)

(** A-1: background (Perplexity), candidate directions (GPT),
    recommendation (Gemini). *)
Definition handle_mode_a_plan (user_input : str) : M (option str) :=
  bg <- call_perplexity (plan_bg_prompt user_input) ;;
  ideas <- call_gpt (plan_ideas_prompt user_input (format_value bg)) ;;
  plan <- call_gemini (plan_plan_prompt user_input (format_value bg)
                                        (format_value ideas)) ;;
  ret plan.

(** A-2: outline from the stored plan (Gemini), report body (Claude). *)
Definition handle_mode_a_report (user_input previous_answer : str)
  : M (option str) :=
  outline <- call_gemini (report_outline_prompt user_input previous_answer) ;;
  final_report <- call_claude (report_final_prompt (format_value outline)) ;;
  ret final_report.

(** B: facts (Perplexity), draft (GPT), logic check (Gemini),
    polish (Claude). *)
Definition handle_mode_b_essay (user_input : str) : M (option str) :=
  facts <- call_perplexity (essay_facts_prompt user_input) ;;
  draft <- call_gpt (essay_draft_prompt user_input (format_value facts)) ;;
  checked <- call_gemini (essay_checked_prompt (format_value draft)) ;;
  final <- call_claude (essay_final_prompt (format_value checked)) ;;
  ret final.

(** C: brainstorm (GPT), select and expand (Gemini), tidy up (Claude). *)
Definition handle_mode_c_ideas (user_input : str) : M (option str) :=
  raw_ideas <- call_gpt (ideas_raw_prompt user_input) ;;
  refined <- call_gemini (ideas_refined_prompt user_input
                                               (format_value raw_ideas)) ;;
  final <- call_claude (ideas_final_prompt (format_value refined)) ;;
  ret final.

(** D: web research (Perplexity), restructuring (Gemini). *)
Definition handle_mode_d_research (user_input : str) : M (option str) :=
  px_answer <- call_perplexity (research_px_prompt user_input) ;;
  final <- call_gemini (research_final_prompt (format_value px_answer)) ;;
  ret final.

(* ================================================================= *)
(** ** The endpoint *)

(** What the route answers: a [ChatResponse], the [HTTPException]
    raised by the [except] clause of [chat], or the validation error
    raised when the body does not make a [ChatRequest]. *)
Inductive response : Type :=
| ChatResponse (answer : str)
| HTTPException (status_code : N) (detail : str)
| ValidationError.

(** The body of [chat]: the [try] block is the dispatch on [req.mode]
    followed by [return ChatResponse(answer=answer)], which raises
    [invalid_answer] when the answer is [None]; the
    [except Exception as e] clause turns any raised exception into an
    HTTP 500 whose detail embeds [str(e)]. *)
Definition chat (req : ChatRequest) : world -> response * world :=
  fun w =>
    match
      (if str_eqb (mode req) (u8 "A") then
         let text := user_input req in
         let want_report := is_report_request text in
         if want_report then
           stored <- read_last_plan ;;
           match stored with
           | None => ret (Some NO_PLAN_NOTICE)
           | Some previous_answer =>
               handle_mode_a_report (user_input req) previous_answer
           end
         else
           plan <- handle_mode_a_plan (user_input req) ;;
           write_last_plan plan ;;;
           ret plan
       else if str_eqb (mode req) (u8 "B") then
         handle_mode_b_essay (user_input req)
       else if str_eqb (mode req) (u8 "C") then
         handle_mode_c_ideas (user_input req)
       else (* "D" *)
         handle_mode_d_research (user_input req)) w
    with
    | (Returned (Some answer), w') => (ChatResponse answer, w')
    | (Returned None, w') =>
        (HTTPException 500 (error_detail invalid_answer), w')
    | (Raised e, w') => (HTTPException 500 (error_detail e), w')
    end.

(** The route [POST /chat] on a body whose two fields are strings: the
    body is first validated into a [ChatRequest]; [chat] runs only on a
    valid one. *)
Definition post_chat (raw_mode raw_user_input : str)
  : world -> response * world :=
  fun w =>
    match validate_ChatRequest raw_mode raw_user_input with
    | Some req => chat req w
    | None => (ValidationError, w)
    end.

(** The route on any body. *)
Definition route_chat (mode_field user_input_field : body_field)
  : world -> response * world :=
  fun w =>
    match validate_body mode_field user_input_field with
    | Some req => chat req w
    | None => (ValidationError, w)
    end.

(** Requests served one after another by the same process. *)
Fixpoint serve (reqs : list (str * str)) (w : world)
  : list response * world :=
  match reqs with
  | [] => ([], w)
  | (m, t) :: rest =>
      let (r, w1) := post_chat m t w in
      let (rs, w2) := serve rest w1 in
      (r :: rs, w2)
  end.

End Handlers.


(* ================================================================= *)
(** ** Vocabulary of the statements *)

(** The providers by the role the pipelines give them. *)
Definition search : provider := Perplexity.
Definition reasoning : provider := Gpt.
Definition synthesis : provider := Gemini.
Definition long_form : provider := Claude.

(** A call that returned [v] (a text or [None]), as a log entry. *)
Definition returned (p : provider) (q : str) (v : option str) : call :=
  {| callee := p; prompt := q; outcome := Returned v |}.

(** A call answered with the text [a], as a log entry. *)
Definition answered (p : provider) (q a : str) : call :=
  {| callee := p; prompt := q; outcome := Returned (Some a) |}.

(** The call did not raise. *)
Definition call_ok (c : call) : bool :=
  match outcome c with
  | Returned _ => true
  | Raised _ => false
  end.

(** The world after the calls [seg] were logged on top of [w]. *)
Definition extend (w : world) (seg : list call) : world :=
  {| last_plan_for_a := last_plan_for_a w; calls := calls w ++ seg |}.

(** The world with another content of the plan slot. *)
Definition with_plan (stored : option str) (w : world) : world :=
  {| last_plan_for_a := stored; calls := calls w |}.

(** The calls logged between [w] and a later world [w']. *)
Definition new_calls (w w' : world) : list call :=
  skipn (List.length (calls w)) (calls w').

(** [replays remote history seg]: asked the calls of [seg] one after
    another on top of [history], the backend gives the logged outcomes. *)
Fixpoint replays (remote : backend) (history seg : list call) : Prop :=
  match seg with
  | [] => True
  | c :: rest =>
      remote history (callee c) (prompt c) = outcome c /\
      replays remote (history ++ [c]) rest
  end.

(** The logs of the five pipelines when every stage answers. *)
Definition plan_trace (text bg ideas plan : str) : list call :=
  [ answered search (plan_bg_prompt text) bg;
    answered reasoning (plan_ideas_prompt text bg) ideas;
    answered synthesis (plan_plan_prompt text bg ideas) plan ].

Definition report_trace (text stored outline final_report : str) : list call :=
  [ answered synthesis (report_outline_prompt text stored) outline;
    answered long_form (report_final_prompt outline) final_report ].

Definition essay_trace (text facts draft checked final : str) : list call :=
  [ answered search (essay_facts_prompt text) facts;
    answered reasoning (essay_draft_prompt text facts) draft;
    answered synthesis (essay_checked_prompt draft) checked;
    answered long_form (essay_final_prompt checked) final ].

Definition ideas_trace (text raw_ideas refined final : str) : list call :=
  [ answered reasoning (ideas_raw_prompt text) raw_ideas;
    answered synthesis (ideas_refined_prompt text raw_ideas) refined;
    answered long_form (ideas_final_prompt refined) final ].

Definition research_trace (text px_answer final : str) : list call :=
  [ answered search (research_px_prompt text) px_answer;
    answered synthesis (research_final_prompt px_answer) final ].

(** A backend for examples: every provider has one canned answer. *)
Definition canned (p : provider) (q : str) : result (option str) :=
  match p with
  | Perplexity => Returned (Some (u8 "BG"))
  | Gpt => Returned (Some (u8 "IDEAS"))
  | Gemini => Returned (Some (u8 "PLAN_OUT"))
  | Claude => Returned (Some (u8 "REPORT"))
  end.

(** A backend whose reasoning provider is out of quota. *)
Definition flaky (p : provider) (q : str) : result (option str) :=
  match p with
  | Gpt => Raised {| exc_str := u8 "quota exceeded" |}
  | _ => canned p q
  end.

(** Four distinguishable canned answers. *)
Definition labelled (p : provider) (q : str) : result (option str) :=
  match p with
  | Perplexity => Returned (Some (u8 "FACTS"))
  | Gpt => Returned (Some (u8 "DRAFT"))
  | Gemini => Returned (Some (u8 "CHECKED"))
  | Claude => Returned (Some (u8 "FINAL"))
  end.

(** A backend whose synthesis provider sends responses without text. *)
Definition textless (p : provider) (q : str) : result (option str) :=
  match p with
  | Gemini => Returned None
  | _ => canned p q
  end.

(** A description for the error of a [ChatResponse] without a string. *)
Definition not_a_string : PyException :=
  {| exc_str := u8 "answer: Input should be a valid string" |}.

(** What [chat] makes of the result of its [try] block. *)
Definition respond (invalid_answer : PyException)
    (rw : result (option str) * world) : response * world :=
  match rw with
  | (Returned (Some answer), w') => (ChatResponse answer, w')
  | (Returned None, w') =>
      (HTTPException 500 (error_detail invalid_answer), w')
  | (Raised e, w') => (HTTPException 500 (error_detail e), w')
  end.

(** A log segment that stops at its first failed call. *)
Definition aborted_by (e : PyException) (seg : list call) : Prop :=
  exists done c,
    seg = done ++ [c] /\ forallb call_ok done = true /\ outcome c = Raised e.

(** A computation that only logs calls, never touches the plan slot,
    and stops at the first call that raises. *)
Definition traced {A} (m : M A) : Prop :=
  forall w, exists seg,
    snd (m w) = extend w seg /\
    match fst (m w) with
    | Returned _ => forallb call_ok seg = true
    | Raised e => aborted_by e seg
    end.

(** A computation that passes the plan slot through unread. *)
Definition plan_blind {A} (m : M A) : Prop :=
  forall stored w,
    m (with_plan stored w) = (fst (m w), with_plan stored (snd (m w))).

(** A computation whose result does not depend on the world. *)
Definition world_free {A} (m : M A) : Prop :=
  forall w1 w2, fst (m w1) = fst (m w2).

(** A log segment in which no call raised and the last one returned
    [None]. *)
Definition ended_without_text (seg : list call) : Prop :=
  exists done p q,
    seg = done ++ [returned p q None] /\ forallb call_ok done = true.

(** The summary a request leaves: the calls it logged, and how the
    response relates to them. *)
Definition outcome_of_request (invalid_answer : PyException) (w : world)
    (rw : response * world) : Prop :=
  exists seg,
    calls (snd rw) = calls w ++ seg /\
    match fst rw with
    | ChatResponse _ => forallb call_ok seg = true
    | HTTPException code detail =>
        code = 500 /\
        ((exists e, aborted_by e seg /\ detail = error_detail e
                    /\ last_plan_for_a (snd rw) = last_plan_for_a w)
         \/ (ended_without_text seg
             /\ detail = error_detail invalid_answer))
    | ValidationError => seg = [] /\ snd rw = w
    end.

(** Every stage's prompt contains the original input and the answer of
    every earlier stage. *)
Fixpoint history_embedded (original : str) (prior : list str)
    (seg : list call) : bool :=
  match seg with
  | [] => true
  | c :: rest =>
      str_in original (prompt c)
      && forallb (fun earlier => str_in earlier (prompt c)) prior
      && match outcome c with
         | Returned a =>
             history_embedded original (prior ++ [format_value a]) rest
         | Raised _ => history_embedded original prior rest
         end
  end.

(** What the template of a stage interpolates: everything there is so
    far (the original texts and the answers of all earlier stages), or
    the answer of the stage just before it and nothing else. *)
Inductive embedding : Type :=
| WholeHistory
| PreviousOnly.

(** The templates of the five pipelines, stage by stage. *)
Definition embeddings_of (m text : str) (stored : option str)
  : list embedding :=
  if str_eqb m (u8 "A") then
    if is_report_request text then
      match stored with
      | None => []
      | Some _ => [WholeHistory; PreviousOnly]
      end
    else [WholeHistory; WholeHistory; WholeHistory]
  else if str_eqb m (u8 "B") then
    [WholeHistory; WholeHistory; PreviousOnly; PreviousOnly]
  else if str_eqb m (u8 "C") then [WholeHistory; WholeHistory; PreviousOnly]
  else [WholeHistory; PreviousOnly].

(** The texts a pipeline starts from: the user input, and for the
    report pipeline the stored plan as well. *)
Definition originals_of (m text : str) (stored : option str) : list str :=
  if str_eqb m (u8 "A") && is_report_request text then
    match stored with
    | None => [text]
    | Some previous_answer => [text; previous_answer]
    end
  else [text].

(** The last text of a history, if any. *)
Definition latest (history : list str) : option str :=
  match rev history with
  | [] => None
  | last :: _ => Some last
  end.

(** Every stage's prompt contains what its [embedding] says: all of
    [history] (the originals and the answers so far, as formatted into
    text), or its latest entry. *)
Fixpoint stage_embeddings (history : list str) (stages : list embedding)
    (seg : list call) : bool :=
  match seg, stages with
  | [], _ => true
  | _ :: _, [] => false
  | c :: rest, stage :: stages' =>
      match stage with
      | WholeHistory => forallb (fun s => str_in s (prompt c)) history
      | PreviousOnly =>
          match latest history with
          | Some previous => str_in previous (prompt c)
          | None => false
          end
      end
      && match outcome c with
         | Returned a =>
             stage_embeddings (history ++ [format_value a]) stages' rest
         | Raised _ => stage_embeddings history stages' rest
         end
  end.

(** The prompt of every [PreviousOnly] stage contains none of the
    texts of [history] older than the latest one. *)
Fixpoint stage_omissions (history : list str) (stages : list embedding)
    (seg : list call) : bool :=
  match seg, stages with
  | [], _ => true
  | _ :: _, [] => false
  | c :: rest, stage :: stages' =>
      match stage with
      | WholeHistory => true
      | PreviousOnly =>
          forallb (fun s => negb (str_in s (prompt c))) (removelast history)
      end
      && match outcome c with
         | Returned a =>
             stage_omissions (history ++ [format_value a]) stages' rest
         | Raised _ => stage_omissions history stages' rest
         end
  end.

(** The templates with one interpolation point, the answer of the
    stage before. *)
Definition previous_only_templates : list (str -> str) :=
  [ report_final_prompt; essay_checked_prompt; essay_final_prompt;
    ideas_final_prompt; research_final_prompt ].

(** The prompt of every [PreviousOnly] stage is one of these templates
    filled with the latest text of [history], so it is a function of
    that text alone. *)
Fixpoint stage_templates (history : list str) (stages : list embedding)
    (seg : list call) : Prop :=
  match seg, stages with
  | [], _ => True
  | _ :: _, [] => False
  | c :: rest, stage :: stages' =>
      match stage with
      | WholeHistory => True
      | PreviousOnly =>
          exists template previous,
            In template previous_only_templates
            /\ latest history = Some previous
            /\ prompt c = template previous
      end
      /\ match outcome c with
         | Returned a =>
             stage_templates (history ++ [format_value a]) stages' rest
         | Raised _ => stage_templates history stages' rest
         end
  end.

(** The run of a request against the [labelled] answers goes through
    every stage of its pipeline, and the prompts of its [PreviousOnly]
    stages contain nothing older than the previous answer. *)
Definition omits_older (req : ChatRequest) (w : world) : bool :=
  let seg :=
    new_calls w (snd (chat (stateless labelled) not_a_string req w)) in
  let stages :=
    embeddings_of (mode req) (user_input req) (last_plan_for_a w) in
  Nat.eqb (List.length seg) (List.length stages)
  && stage_omissions
       (originals_of (mode req) (user_input req) (last_plan_for_a w))
       stages seg.

Arguments u8 : simpl never.
Arguments plan_bg_prompt : simpl never.
Arguments plan_ideas_prompt : simpl never.
Arguments plan_plan_prompt : simpl never.
Arguments report_outline_prompt : simpl never.
Arguments report_final_prompt : simpl never.
Arguments essay_facts_prompt : simpl never.
Arguments essay_draft_prompt : simpl never.
Arguments essay_checked_prompt : simpl never.
Arguments essay_final_prompt : simpl never.
Arguments ideas_raw_prompt : simpl never.
Arguments ideas_refined_prompt : simpl never.
Arguments ideas_final_prompt : simpl never.
Arguments research_px_prompt : simpl never.
Arguments research_final_prompt : simpl never.
Arguments error_detail : simpl never.
Arguments NO_PLAN_NOTICE : simpl never.
Arguments is_report_request : simpl never.

(** The providers a request is due to call, in order: fixed by the
    mode, the classifier and whether a plan is stored. *)
Definition pipeline_of (m text : str) (stored : option str) : list provider :=
  if str_eqb m (u8 "A") then
    if is_report_request text then
      match stored with
      | None => []
      | Some _ => [synthesis; long_form]
      end
    else [search; reasoning; synthesis]
  else if str_eqb m (u8 "B") then [search; reasoning; synthesis; long_form]
  else if str_eqb m (u8 "C") then [reasoning; synthesis; long_form]
  else [search; synthesis].

(** A computation that calls the providers of [chain] in order, all of
    them when it returns, some first ones when it raises. *)
Definition follows {A} (chain : list provider) (m : M A) : Prop :=
  forall w, exists seg,
    snd (m w) = extend w seg /\
    match fst (m w) with
    | Returned _ => map callee seg = chain
    | Raised _ => exists rest, chain = map callee seg ++ rest
    end.

(** What [follows] says once the handler's result is wrapped into a
    response. *)
Definition prefix_of_pipeline (chain : list provider) (w : world)
    (rw : response * world) : Prop :=
  exists rest,
    chain = map callee (new_calls w (snd rw)) ++ rest
    /\ (forall answer, fst rw = ChatResponse answer -> rest = []).

(** A computation that returns what the call it logged last returned,
    no call before it having raised. *)
Definition returns_last (m : M (option str)) : Prop :=
  forall w v w',
    m w = (Returned v, w') ->
    exists done p q,
      calls w' = calls w ++ done ++ [returned p q v]
      /\ forallb call_ok done = true.

(** The names of the four keys. *)
Definition KEY_NAMES : list str :=
  [ u8 "OPENAI_API_KEY"; u8 "GEMINI_API_KEY";
    u8 "ANTHROPIC_API_KEY"; u8 "PERPLEXITY_API_KEY" ].

(** The sentence the last planning prompt asks the model to print, with
    [choice] where the template has the letter X. *)
Definition follow_up_sentence (choice : str) : str :=
  u8 "이제 이 중에서 " ++ choice ++ u8 "번으로 탐구 보고서 작성해줘".

(* ================================================================= *)
(** ** Substring containment *)

Lemma startswith_iff (s p : str) :
  startswith s p = true <-> exists post, s = p ++ post.
Proof.
  revert s. induction p as [|a p IH]; intros s; simpl.
  - split; [intros _; now exists s | reflexivity].
  - destruct s as [|c s].
    + split; [discriminate | intros [post H]; discriminate].
    + rewrite andb_true_iff, N.eqb_eq, IH. split.
      * intros [-> [post ->]]. now exists post.
      * intros [post H]. injection H as -> ->. split; [reflexivity | now exists post].
Qed.

Lemma str_in_iff (needle hay : str) :
  str_in needle hay = true <-> exists pre post, hay = pre ++ needle ++ post.
Proof.
  induction hay as [|c hay IH]; simpl.
  - rewrite orb_false_r, startswith_iff. split.
    + intros [post H]. now exists [], post.
    + intros [pre [post H]]. destruct pre; [now exists post | discriminate].
  - rewrite orb_true_iff, startswith_iff, IH. split.
    + intros [[post H] | [pre [post H]]].
      * now exists [], post.
      * exists (c :: pre), post. simpl. now rewrite H.
    + intros [pre [post H]]. destruct pre as [|c' pre]; simpl in H.
      * left. now exists post.
      * right. injection H as _ H. now exists pre, post.
Qed.

Lemma str_in_here (x rest : str) : str_in x (x ++ rest) = true.
Proof. apply str_in_iff. now exists [], rest. Qed.

Lemma str_in_later (x skipped rest : str) :
  str_in x rest = true -> str_in x (skipped ++ rest) = true.
Proof.
  rewrite !str_in_iff. intros [pre [post ->]].
  exists (skipped ++ pre), post. now rewrite <- app_assoc.
Qed.

Lemma str_in_self (x : str) : str_in x x = true.
Proof. apply str_in_iff. exists [], []. now rewrite app_nil_r. Qed.

(** Finds an interpolated text inside a template written as a chain
    of [++], comparing the pieces syntactically. *)
Ltac embedded :=
  lazymatch goal with
  | |- str_in ?x (?y ++ _) = true =>
      first [ constr_eq x y; apply str_in_here
            | apply str_in_later; embedded ]
  | |- str_in ?x ?y = true => constr_eq x y; apply str_in_self
  end.

Lemma str_eqb_eq (s t : str) : str_eqb s t = true <-> s = t.
Proof.
  revert t. induction s as [|a s IH]; intros [|b t]; simpl;
    try (split; [discriminate | discriminate]); try tauto.
  rewrite andb_true_iff, N.eqb_eq, IH. split.
  - now intros [-> ->].
  - intros H. now injection H.
Qed.

(* ================================================================= *)
(** ** The intent classifier *)

(** C4. [is_report_request] is a function of the text alone and answers
    true exactly when some keyword of [REPORT_KEYWORDS] occurs in the
    text as a contiguous run of equal code points; in particular a
    keyword buried inside arbitrary surrounding text is still found. *)
Theorem is_report_request_substring :
  (forall text : str,
      is_report_request text = true <->
      exists keyword pre post,
        In keyword REPORT_KEYWORDS /\ text = pre ++ keyword ++ post)
  /\
  (forall keyword pre post : str,
      In keyword REPORT_KEYWORDS ->
      is_report_request (pre ++ keyword ++ post) = true).
Proof.
  assert (spec : forall text : str,
      is_report_request text = true <->
      exists keyword pre post,
        In keyword REPORT_KEYWORDS /\ text = pre ++ keyword ++ post).
  { intros text. unfold is_report_request. rewrite existsb_exists. split.
    - intros [keyword [Hin Hsub]]. apply str_in_iff in Hsub.
      destruct Hsub as [pre [post ->]]. now exists keyword, pre, post.
    - intros [keyword [pre [post [Hin ->]]]]. exists keyword. split; [exact Hin|].
      apply str_in_iff. now exists pre, post. }
  split; [exact spec|].
  intros keyword pre post Hin. apply spec. now exists keyword, pre, post.
Qed.

(** A keyword inside a longer word: "신문보고서함". *)
Lemma is_report_request_substring_witness :
  In (u8 "보고서") REPORT_KEYWORDS /\
  is_report_request (u8 "신문" ++ u8 "보고서" ++ u8 "함") = true.
Proof.
  split.
  - simpl. left. reflexivity.
  - apply (proj2 is_report_request_substring (u8 "보고서") (u8 "신문") (u8 "함")).
    simpl. left. reflexivity.
Defined.

(* ================================================================= *)
(** ** Runs whose provider calls all answer *)

Section Runs.

Variable remote : backend.

Lemma call_provider_answered (p : provider) (q a : str) (w : world) :
  remote (calls w) p q = Returned (Some a) ->
  call_provider remote p q w
  = (Returned (Some a), log_call (answered p q a) w).
Proof. intros H. unfold call_provider. now rewrite H. Qed.

Lemma bind_returned {A B} (m : M A) (k : A -> M B) (w w' : world) (a : A) :
  m w = (Returned a, w') -> bind m k w = k a w'.
Proof. intros H. unfold bind. now rewrite H. Qed.

(** Runs one answered stage of a handler. *)
Ltac stage H :=
  erewrite bind_returned by
    (first [ apply call_provider_answered; exact H
           | unfold call_perplexity, call_gpt, call_gemini, call_claude;
             apply call_provider_answered; exact H ]);
  cbn [format_value].

Lemma extend_nil (w : world) : extend w [] = w.
Proof. destruct w. unfold extend. simpl. now rewrite app_nil_r. Qed.

Lemma log_call_extend (w : world) (c : call) : log_call c w = extend w [c].
Proof. reflexivity. Qed.

Lemma extend_extend (w : world) (s1 s2 : list call) :
  extend (extend w s1) s2 = extend w (s1 ++ s2).
Proof. unfold extend. simpl. now rewrite app_assoc. Qed.

Lemma handle_mode_a_plan_run (text bg ideas plan : str) (w : world) :
  replays remote (calls w) (plan_trace text bg ideas plan) ->
  handle_mode_a_plan remote text w
  = (Returned (Some plan), extend w (plan_trace text bg ideas plan)).
Proof.
  unfold plan_trace, report_trace, essay_trace, ideas_trace, research_trace.
  simpl replays. intros (H1 & H2 & H3 & _).
  unfold handle_mode_a_plan.
  stage H1. stage H2. stage H3.
  unfold ret. rewrite !log_call_extend, !extend_extend. reflexivity.
Qed.

Lemma handle_mode_a_report_run (text stored outline final_report : str) (w : world) :
  replays remote (calls w) (report_trace text stored outline final_report) ->
  handle_mode_a_report remote text stored w
  = (Returned (Some final_report),
     extend w (report_trace text stored outline final_report)).
Proof.
  unfold plan_trace, report_trace, essay_trace, ideas_trace, research_trace.
  simpl replays. intros (H1 & H2 & _).
  unfold handle_mode_a_report.
  stage H1. stage H2.
  unfold ret. rewrite !log_call_extend, !extend_extend. reflexivity.
Qed.

Lemma handle_mode_b_essay_run (text facts draft checked final : str) (w : world) :
  replays remote (calls w) (essay_trace text facts draft checked final) ->
  handle_mode_b_essay remote text w
  = (Returned (Some final),
     extend w (essay_trace text facts draft checked final)).
Proof.
  unfold plan_trace, report_trace, essay_trace, ideas_trace, research_trace.
  simpl replays. intros (H1 & H2 & H3 & H4 & _).
  unfold handle_mode_b_essay.
  stage H1. stage H2. stage H3. stage H4.
  unfold ret. rewrite !log_call_extend, !extend_extend. reflexivity.
Qed.

Lemma handle_mode_c_ideas_run (text raw_ideas refined final : str) (w : world) :
  replays remote (calls w) (ideas_trace text raw_ideas refined final) ->
  handle_mode_c_ideas remote text w
  = (Returned (Some final),
     extend w (ideas_trace text raw_ideas refined final)).
Proof.
  unfold plan_trace, report_trace, essay_trace, ideas_trace, research_trace.
  simpl replays. intros (H1 & H2 & H3 & _).
  unfold handle_mode_c_ideas.
  stage H1. stage H2. stage H3.
  unfold ret. rewrite !log_call_extend, !extend_extend. reflexivity.
Qed.

Lemma handle_mode_d_research_run (text px_answer final : str) (w : world) :
  replays remote (calls w) (research_trace text px_answer final) ->
  handle_mode_d_research remote text w
  = (Returned (Some final), extend w (research_trace text px_answer final)).
Proof.
  unfold plan_trace, report_trace, essay_trace, ideas_trace, research_trace.
  simpl replays. intros (H1 & H2 & _).
  unfold handle_mode_d_research.
  stage H1. stage H2.
  unfold ret. rewrite !log_call_extend, !extend_extend. reflexivity.
Qed.

End Runs.

(* ================================================================= *)
(** ** The dispatcher, branch by branch *)

Section Dispatch.

Variable remote : backend.
Variable invalid_answer : PyException.

Lemma chat_mode_a (text : str) (w : world) :
  chat remote invalid_answer {| mode := u8 "A"; user_input := text |} w
  = respond invalid_answer
      ((if is_report_request text then
          stored <- read_last_plan ;;
          match stored with
          | None => ret (Some NO_PLAN_NOTICE)
          | Some previous_answer =>
              handle_mode_a_report remote text previous_answer
          end
        else
          plan <- handle_mode_a_plan remote text ;;
          write_last_plan plan ;;;
          ret plan) w).
Proof. reflexivity. Qed.

Lemma chat_mode_b (text : str) (w : world) :
  chat remote invalid_answer {| mode := u8 "B"; user_input := text |} w
  = respond invalid_answer (handle_mode_b_essay remote text w).
Proof. reflexivity. Qed.

Lemma chat_mode_c (text : str) (w : world) :
  chat remote invalid_answer {| mode := u8 "C"; user_input := text |} w
  = respond invalid_answer (handle_mode_c_ideas remote text w).
Proof. reflexivity. Qed.

(** The last branch of [chat] is an [else]: it is taken by every mode
    that is not "A", "B" or "C". *)
Lemma chat_mode_else (m text : str) (w : world) :
  m <> u8 "A" -> m <> u8 "B" -> m <> u8 "C" ->
  chat remote invalid_answer {| mode := m; user_input := text |} w
  = respond invalid_answer (handle_mode_d_research remote text w).
Proof.
  intros Ha Hb Hc. unfold chat. cbn [mode user_input].
  destruct (str_eqb m (u8 "A")) eqn:Ea; [apply str_eqb_eq in Ea; contradiction|].
  destruct (str_eqb m (u8 "B")) eqn:Eb; [apply str_eqb_eq in Eb; contradiction|].
  destruct (str_eqb m (u8 "C")) eqn:Ec; [apply str_eqb_eq in Ec; contradiction|].
  reflexivity.
Qed.

Lemma chat_mode_d (text : str) (w : world) :
  chat remote invalid_answer {| mode := u8 "D"; user_input := text |} w
  = respond invalid_answer (handle_mode_d_research remote text w).
Proof. reflexivity. Qed.

Lemma validate_ChatRequest_listed (m text : str) :
  In m ModeType ->
  validate_ChatRequest m text = Some {| mode := m; user_input := text |}.
Proof.
  intros Hin. unfold validate_ChatRequest.
  replace (existsb (str_eqb m) ModeType) with true; [reflexivity|].
  symmetry. apply existsb_exists. exists m. split; [exact Hin|].
  now apply str_eqb_eq.
Qed.

Lemma validate_ChatRequest_unlisted (m text : str) :
  ~ In m ModeType -> validate_ChatRequest m text = None.
Proof.
  intros Hout. unfold validate_ChatRequest.
  destruct (existsb (str_eqb m) ModeType) eqn:E; [|reflexivity].
  apply existsb_exists in E. destruct E as [x [Hin Heq]].
  apply str_eqb_eq in Heq. subst x. contradiction.
Qed.

(** On a listed mode the route is the body of [chat]. *)
Lemma post_chat_listed (m text : str) (w : world) :
  In m ModeType ->
  post_chat remote invalid_answer m text w
  = chat remote invalid_answer {| mode := m; user_input := text |} w.
Proof.
  intros Hin. unfold post_chat.
  now rewrite (validate_ChatRequest_listed _ _ Hin).
Qed.

End Dispatch.

(* ================================================================= *)
(** ** Mode A, first phase: planning *)

Lemma chat_plan_run
    (remote : backend) (invalid_answer : PyException) (w : world)
    (text bg ideas plan : str) :
  is_report_request text = false ->
  replays remote (calls w) (plan_trace text bg ideas plan) ->
  chat remote invalid_answer {| mode := u8 "A"; user_input := text |} w
  = (ChatResponse plan,
     {| last_plan_for_a := Some plan;
        calls := calls w ++ plan_trace text bg ideas plan |}).
Proof.
  intros Hno Hrun. rewrite chat_mode_a, Hno.
  erewrite bind_returned by (apply handle_mode_a_plan_run; exact Hrun).
  reflexivity.
Qed.

(** C1. A mode "A" request whose text is not a report request makes
    exactly three provider calls, in the order search, reasoning,
    synthesis; the plan slot is overwritten with the synthesis answer and
    that same answer is the response. *)
Theorem chat_plan_request
    (remote : backend) (invalid_answer : PyException) (w : world)
    (text bg ideas plan : str) :
  is_report_request text = false ->
  replays remote (calls w) (plan_trace text bg ideas plan) ->
  chat remote invalid_answer {| mode := u8 "A"; user_input := text |} w
  = (ChatResponse plan,
     {| last_plan_for_a := Some plan;
        calls := calls w ++ plan_trace text bg ideas plan |})
  /\ map callee (plan_trace text bg ideas plan)
     = [search; reasoning; synthesis].
Proof.
  intros Hno Hrun. split; [|reflexivity].
  now apply chat_plan_run.
Qed.

(** The scenario of the specification: input "pollution", canned
    answers "BG", "IDEAS", "PLAN_OUT". *)
Lemma chat_plan_request_witness :
  chat (stateless canned) not_a_string
       {| mode := u8 "A"; user_input := u8 "pollution" |} initial_world
  = (ChatResponse (u8 "PLAN_OUT"),
     {| last_plan_for_a := Some (u8 "PLAN_OUT");
        calls := plan_trace (u8 "pollution") (u8 "BG") (u8 "IDEAS")
                            (u8 "PLAN_OUT") |}).
Proof.
  apply (chat_plan_request (stateless canned) not_a_string initial_world
           (u8 "pollution") (u8 "BG") (u8 "IDEAS") (u8 "PLAN_OUT")).
  - vm_compute. reflexivity.
  - unfold plan_trace. simpl. repeat split.
Defined.

(* ================================================================= *)
(** ** Mode A, second phase: writing the report *)

(** C2. A mode "A" report request while the slot holds [stored] makes
    exactly two provider calls, synthesis then long-form; the synthesis
    prompt contains [stored] verbatim; the long-form answer is the
    response; the slot still holds [stored]. *)
Theorem chat_report_request
    (remote : backend) (invalid_answer : PyException) (w : world)
    (text stored outline final_report : str) :
  is_report_request text = true ->
  last_plan_for_a w = Some stored ->
  replays remote (calls w) (report_trace text stored outline final_report) ->
  chat remote invalid_answer {| mode := u8 "A"; user_input := text |} w
  = (ChatResponse final_report,
     {| last_plan_for_a := Some stored;
        calls := calls w ++ report_trace text stored outline final_report |})
  /\ map callee (report_trace text stored outline final_report)
     = [synthesis; long_form]
  /\ map prompt (report_trace text stored outline final_report)
     = [report_outline_prompt text stored; report_final_prompt outline]
  /\ str_in stored (report_outline_prompt text stored) = true.
Proof.
  intros Hyes Hslot Hrun. repeat split.
  - rewrite chat_mode_a, Hyes.
    unfold bind at 1. unfold read_last_plan. rewrite Hslot.
    rewrite (handle_mode_a_report_run remote _ _ _ _ _ Hrun).
    unfold extend. rewrite Hslot. reflexivity.
  - unfold report_outline_prompt. embedded.
Qed.

Lemma chat_report_request_witness :
  chat (stateless canned) not_a_string
       {| mode := u8 "A"; user_input := u8 "2번으로 보고서 작성해줘" |}
       {| last_plan_for_a := Some (u8 "X"); calls := [] |}
  = (ChatResponse (u8 "REPORT"),
     {| last_plan_for_a := Some (u8 "X");
        calls := report_trace (u8 "2번으로 보고서 작성해줘") (u8 "X")
                              (u8 "PLAN_OUT") (u8 "REPORT") |})
  /\ str_in (u8 "X")
            (report_outline_prompt (u8 "2번으로 보고서 작성해줘") (u8 "X"))
     = true.
Proof.
  destruct (chat_report_request (stateless canned) not_a_string
              {| last_plan_for_a := Some (u8 "X"); calls := [] |}
              (u8 "2번으로 보고서 작성해줘") (u8 "X")
              (u8 "PLAN_OUT") (u8 "REPORT")) as (Hrun & _ & _ & Hsub).
  - vm_compute. reflexivity.
  - reflexivity.
  - unfold report_trace. simpl. repeat split.
  - split; [exact Hrun | exact Hsub].
Defined.

(** C3. A mode "A" report request while the slot is empty answers the
    fixed notice, calls no provider and leaves the slot empty: the world
    is unchanged. *)
Theorem chat_report_without_plan
    (remote : backend) (invalid_answer : PyException) (w : world)
    (text : str) :
  is_report_request text = true ->
  last_plan_for_a w = None ->
  chat remote invalid_answer {| mode := u8 "A"; user_input := text |} w
  = (ChatResponse NO_PLAN_NOTICE, w).
Proof.
  intros Hyes Hslot. rewrite chat_mode_a, Hyes.
  unfold bind, read_last_plan. rewrite Hslot. reflexivity.
Qed.

Lemma chat_report_without_plan_witness :
  chat (stateless canned) not_a_string
       {| mode := u8 "A"; user_input := u8 "보고서 작성해줘" |} initial_world
  = (ChatResponse NO_PLAN_NOTICE, initial_world).
Proof.
  apply (chat_report_without_plan (stateless canned) not_a_string initial_world
           (u8 "보고서 작성해줘")).
  - vm_compute. reflexivity.
  - reflexivity.
Defined.

(* ================================================================= *)
(** ** Modes B, C and D *)

(** C6. With providers that answer, mode "B" runs search, reasoning,
    synthesis, long-form; mode "C" runs reasoning, synthesis, long-form;
    mode "D" runs search, synthesis; each in that order, and the
    response is the answer of the last stage, unchanged. *)
Theorem chat_fixed_chains
    (remote : backend) (invalid_answer : PyException) (w : world)
    (text : str) :
  (forall facts draft checked final : str,
      replays remote (calls w) (essay_trace text facts draft checked final) ->
      chat remote invalid_answer {| mode := u8 "B"; user_input := text |} w
      = (ChatResponse final,
         extend w (essay_trace text facts draft checked final))
      /\ map callee (essay_trace text facts draft checked final)
         = [search; reasoning; synthesis; long_form])
  /\
  (forall raw_ideas refined final : str,
      replays remote (calls w) (ideas_trace text raw_ideas refined final) ->
      chat remote invalid_answer {| mode := u8 "C"; user_input := text |} w
      = (ChatResponse final,
         extend w (ideas_trace text raw_ideas refined final))
      /\ map callee (ideas_trace text raw_ideas refined final)
         = [reasoning; synthesis; long_form])
  /\
  (forall px_answer final : str,
      replays remote (calls w) (research_trace text px_answer final) ->
      chat remote invalid_answer {| mode := u8 "D"; user_input := text |} w
      = (ChatResponse final, extend w (research_trace text px_answer final))
      /\ map callee (research_trace text px_answer final)
         = [search; synthesis]).
Proof.
  repeat split.
  - rewrite chat_mode_b.
    now rewrite (handle_mode_b_essay_run remote _ _ _ _ _ _ H).
  - rewrite chat_mode_c.
    now rewrite (handle_mode_c_ideas_run remote _ _ _ _ _ H).
  - rewrite chat_mode_d.
    now rewrite (handle_mode_d_research_run remote _ _ _ _ H).
Qed.

Lemma chat_fixed_chains_witness :
  chat (stateless canned) not_a_string
       {| mode := u8 "B"; user_input := u8 "school uniforms" |} initial_world
  = (ChatResponse (u8 "REPORT"),
     extend initial_world
       (essay_trace (u8 "school uniforms") (u8 "BG") (u8 "IDEAS")
                    (u8 "PLAN_OUT") (u8 "REPORT")))
  /\
  chat (stateless canned) not_a_string
       {| mode := u8 "C"; user_input := u8 "club fair" |} initial_world
  = (ChatResponse (u8 "REPORT"),
     extend initial_world
       (ideas_trace (u8 "club fair") (u8 "IDEAS") (u8 "PLAN_OUT")
                    (u8 "REPORT")))
  /\
  chat (stateless canned) not_a_string
       {| mode := u8 "D"; user_input := u8 "microplastics" |} initial_world
  = (ChatResponse (u8 "PLAN_OUT"),
     extend initial_world
       (research_trace (u8 "microplastics") (u8 "BG") (u8 "PLAN_OUT"))).
Proof.
  split; [|split].
  - apply (proj1 (chat_fixed_chains (stateless canned) not_a_string initial_world
                    (u8 "school uniforms"))).
    unfold essay_trace. simpl. repeat split.
  - apply (proj1 (proj2 (chat_fixed_chains (stateless canned) not_a_string initial_world
                           (u8 "club fair")))).
    unfold ideas_trace. simpl. repeat split.
  - apply (proj2 (proj2 (chat_fixed_chains (stateless canned) not_a_string initial_world
                           (u8 "microplastics")))).
    unfold research_trace. simpl. repeat split.
Defined.

(* ================================================================= *)
(** ** Modes outside the enumeration *)

(** C9. A request whose mode is not one of "A", "B", "C", "D" fails
    with a validation error: no provider is called and the plan slot is
    untouched.  This holds whatever the [user_input] field of the body
    is, and also when the mode field is missing or not a string. *)
Theorem post_chat_rejects_unlisted_mode
    (remote : backend) (invalid_answer : PyException)
    (raw_mode text : str) (w : world) :
  ~ In raw_mode ModeType ->
  post_chat remote invalid_answer raw_mode text w = (ValidationError, w)
  /\ (forall user_input_field : body_field,
        route_chat remote invalid_answer (AString raw_mode)
                   user_input_field w
        = (ValidationError, w)
        /\ route_chat remote invalid_answer Absent user_input_field w
           = (ValidationError, w)
        /\ route_chat remote invalid_answer NotAString user_input_field w
           = (ValidationError, w)).
Proof.
  intros Hout. split.
  - unfold post_chat.
    now rewrite (validate_ChatRequest_unlisted _ _ Hout).
  - intros user_input_field. unfold route_chat, validate_body.
    repeat split.
    destruct user_input_field as [| |raw_user_input]; try reflexivity.
    now rewrite (validate_ChatRequest_unlisted _ _ Hout).
Qed.

Lemma post_chat_rejects_unlisted_mode_witness :
  ~ In (u8 "E") ModeType /\
  post_chat (stateless canned) not_a_string (u8 "E") (u8 "pollution")
            initial_world
  = (ValidationError, initial_world).
Proof.
  assert (Hout : ~ In (u8 "E") ModeType).
  { intros H. vm_compute in H.
    repeat (destruct H as [H|H]; [discriminate H|]). exact H. }
  split; [exact Hout|].
  apply (proj1 (post_chat_rejects_unlisted_mode (stateless canned)
                  not_a_string (u8 "E") (u8 "pollution") initial_world
                  Hout)).
Defined.

(* ================================================================= *)
(** ** What every handler run looks like *)

Section Summaries.

Variable remote : backend.

Lemma traced_ret {A} (a : A) : traced (ret a).
Proof. intros w. exists []. simpl. now rewrite extend_nil. Qed.

Lemma traced_call_provider (p : provider) (q : str) :
  traced (call_provider remote p q).
Proof.
  intros w. exists [{| callee := p; prompt := q; outcome := remote (calls w) p q |}].
  unfold call_provider. simpl. split; [reflexivity|].
  destruct (remote (calls w) p q) as [a|e] eqn:E.
  - reflexivity.
  - exists [], {| callee := p; prompt := q; outcome := Raised e |}.
    repeat split.
Qed.

Lemma traced_bind {A B} (m : M A) (k : A -> M B) :
  traced m -> (forall a, traced (k a)) -> traced (bind m k).
Proof.
  intros Hm Hk w. destruct (Hm w) as [seg1 [Hw1 Hr1]].
  unfold bind. destruct (m w) as [[a|e] w1]; simpl in Hw1, Hr1; subst w1.
  - destruct (Hk a (extend w seg1)) as [seg2 [Hw2 Hr2]].
    exists (seg1 ++ seg2). rewrite Hw2, extend_extend. split; [reflexivity|].
    destruct (fst (k a (extend w seg1))) as [b|e].
    + rewrite forallb_app, Hr1, Hr2. reflexivity.
    + destruct Hr2 as (done & c & -> & Hdone & Hc).
      exists (seg1 ++ done), c. rewrite app_assoc, forallb_app, Hr1, Hdone.
      repeat split. exact Hc.
  - exists seg1. simpl. split; [reflexivity | exact Hr1].
Qed.

Lemma plan_blind_ret {A} (a : A) : plan_blind (ret a).
Proof. intros stored w. reflexivity. Qed.

Lemma plan_blind_call_provider (p : provider) (q : str) :
  plan_blind (call_provider remote p q).
Proof. intros stored w. reflexivity. Qed.

Lemma plan_blind_bind {A B} (m : M A) (k : A -> M B) :
  plan_blind m -> (forall a, plan_blind (k a)) -> plan_blind (bind m k).
Proof.
  intros Hm Hk stored w. unfold bind. rewrite Hm.
  destruct (m w) as [[a|e] w1]; simpl.
  - apply Hk.
  - reflexivity.
Qed.

Lemma world_free_ret {A} (a : A) : world_free (ret a).
Proof. intros w1 w2. reflexivity. Qed.

Lemma world_free_bind {A B} (m : M A) (k : A -> M B) :
  world_free m -> (forall a, world_free (k a)) -> world_free (bind m k).
Proof.
  intros Hm Hk w1 w2. unfold bind. specialize (Hm w1 w2).
  destruct (m w1) as [[a1|e1] w1'], (m w2) as [[a2|e2] w2']; simpl in Hm;
    try discriminate Hm.
  - injection Hm as ->. apply Hk.
  - simpl. injection Hm as ->. reflexivity.
Qed.

End Summaries.

Lemma world_free_call_provider (r : provider -> str -> result (option str))
    (p : provider) (q : str) :
  world_free (call_provider (stateless r) p q).
Proof. intros w1 w2. reflexivity. Qed.

(** Walks down a handler, one [bind] at a time. *)
Ltac handler_summary ret_lemma call_lemma bind_lemma :=
  unfold call_perplexity, call_gpt, call_gemini, call_claude;
  repeat first
    [ apply ret_lemma
    | apply call_lemma
    | apply bind_lemma; [| intro] ].

Section HandlerSummaries.

Variable remote : backend.

Lemma handle_mode_a_plan_traced text : traced (handle_mode_a_plan remote text).
Proof. unfold handle_mode_a_plan. handler_summary @traced_ret traced_call_provider @traced_bind. Qed.

Lemma handle_mode_a_report_traced text stored :
  traced (handle_mode_a_report remote text stored).
Proof. unfold handle_mode_a_report. handler_summary @traced_ret traced_call_provider @traced_bind. Qed.

Lemma handle_mode_b_essay_traced text : traced (handle_mode_b_essay remote text).
Proof. unfold handle_mode_b_essay. handler_summary @traced_ret traced_call_provider @traced_bind. Qed.

Lemma handle_mode_c_ideas_traced text : traced (handle_mode_c_ideas remote text).
Proof. unfold handle_mode_c_ideas. handler_summary @traced_ret traced_call_provider @traced_bind. Qed.

Lemma handle_mode_d_research_traced text :
  traced (handle_mode_d_research remote text).
Proof. unfold handle_mode_d_research. handler_summary @traced_ret traced_call_provider @traced_bind. Qed.

Lemma handle_mode_b_essay_blind text : plan_blind (handle_mode_b_essay remote text).
Proof. unfold handle_mode_b_essay. handler_summary @plan_blind_ret plan_blind_call_provider @plan_blind_bind. Qed.

Lemma handle_mode_c_ideas_blind text : plan_blind (handle_mode_c_ideas remote text).
Proof. unfold handle_mode_c_ideas. handler_summary @plan_blind_ret plan_blind_call_provider @plan_blind_bind. Qed.

Lemma handle_mode_d_research_blind text :
  plan_blind (handle_mode_d_research remote text).
Proof. unfold handle_mode_d_research. handler_summary @plan_blind_ret plan_blind_call_provider @plan_blind_bind. Qed.

End HandlerSummaries.

Lemma handle_mode_b_essay_world_free (r : provider -> str -> result (option str)) text :
  world_free (handle_mode_b_essay (stateless r) text).
Proof.
  unfold handle_mode_b_essay.
  handler_summary @world_free_ret world_free_call_provider @world_free_bind.
Qed.

(* ================================================================= *)
(** ** Reading a run *)

Lemma new_calls_extend (w : world) (seg : list call) :
  new_calls w (extend w seg) = seg.
Proof.
  unfold new_calls, extend. simpl.
  induction (calls w) as [|c l IH]; [reflexivity | exact IH].
Qed.

Lemma new_calls_app (w w' : world) (seg : list call) :
  calls w' = calls w ++ seg -> new_calls w w' = seg.
Proof.
  intros H. unfold new_calls. rewrite H. clear H.
  induction (calls w) as [|c l IH]; [reflexivity | exact IH].
Qed.

Lemma new_calls_same (w : world) : new_calls w w = [].
Proof. apply new_calls_app. now rewrite app_nil_r. Qed.

Lemma bind_returned_inv {A B} (m : M A) (k : A -> M B) (w w' : world) (b : B) :
  bind m k w = (Returned b, w') ->
  exists a w1, m w = (Returned a, w1) /\ k a w1 = (Returned b, w').
Proof.
  unfold bind. destruct (m w) as [[a|e] w1]; intros H.
  - now exists a, w1.
  - discriminate H.
Qed.

Lemma call_provider_returned_inv
    (remote : backend) (p : provider) (q : str) (v : option str)
    (w w1 : world) :
  call_provider remote p q w = (Returned v, w1) ->
  remote (calls w) p q = Returned v /\ w1 = log_call (returned p q v) w.
Proof.
  unfold call_provider. intros H. injection H as H <-.
  rewrite H. split; reflexivity.
Qed.

(** Case analysis on the outcome of the next provider call. *)
Lemma bind_call_cases {B} (remote : backend) (p : provider) (q : str)
    (k : option str -> M B) (w : world) (P : result B * world -> Prop) :
  (forall v, remote (calls w) p q = Returned v ->
             P (k v (log_call (returned p q v) w))) ->
  (forall e, remote (calls w) p q = Raised e ->
             P (Raised e,
                log_call {| callee := p; prompt := q; outcome := Raised e |} w)) ->
  P (bind (call_provider remote p q) k w).
Proof.
  intros Hok Hfail. unfold bind, call_provider.
  destruct (remote (calls w) p q) as [v|e] eqn:E.
  - apply Hok. reflexivity.
  - apply Hfail. reflexivity.
Qed.

Lemma read_bind {B} (k : option str -> M B) (w : world) :
  bind read_last_plan k w = k (last_plan_for_a w) w.
Proof. reflexivity. Qed.

(** The planning branch of [chat]: run the handler, store what it
    returned, return it. *)
Lemma store_bind (h : M (option str)) (w : world) :
  (plan <- h ;; write_last_plan plan ;;; ret plan) w
  = match h w with
    | (Returned plan, w') => (Returned plan, with_plan plan w')
    | (Raised e, w') => (Raised e, w')
    end.
Proof. unfold bind. destruct (h w) as [[plan|e] w']; reflexivity. Qed.

Lemma respond_snd (invalid_answer : PyException)
    (rw : result (option str) * world) :
  snd (respond invalid_answer rw) = snd rw.
Proof. destruct rw as [[[a|]|e] w1]; reflexivity. Qed.

Lemma respond_chat_response (invalid_answer : PyException)
    (rw : result (option str) * world) (answer : str) (w' : world) :
  respond invalid_answer rw = (ChatResponse answer, w') ->
  rw = (Returned (Some answer), w').
Proof.
  destruct rw as [[[a|]|e] w1]; simpl; intros H;
    try discriminate H. now injection H as -> ->.
Qed.

(* ================================================================= *)
(** ** What a handler returns *)

Section LastAnswer.

Variable remote : backend.

Lemma returns_last_call_ret (p : provider) (q : str) :
  returns_last (final <- call_provider remote p q ;; ret final).
Proof.
  intros w v w' H.
  apply bind_returned_inv in H. destruct H as (v' & w1 & Hcall & Hret).
  unfold ret in Hret. injection Hret as -> ->.
  apply call_provider_returned_inv in Hcall. destruct Hcall as [_ ->].
  exists [], p, q. split; reflexivity.
Qed.

Lemma returns_last_call_bind (p : provider) (q : str)
    (k : option str -> M (option str)) :
  (forall v, returns_last (k v)) ->
  returns_last (bind (call_provider remote p q) k).
Proof.
  intros Hk w b w' H.
  apply bind_returned_inv in H. destruct H as (v & w1 & Hcall & Hrest).
  apply call_provider_returned_inv in Hcall. destruct Hcall as [_ ->].
  destruct (Hk v _ _ _ Hrest) as (done & p' & q' & Hcalls & Hdone).
  exists (returned p q v :: done), p', q'. split.
  - rewrite Hcalls. simpl. now rewrite <- app_assoc.
  - simpl. exact Hdone.
Qed.

Ltac last_answer :=
  unfold call_perplexity, call_gpt, call_gemini, call_claude;
  repeat first
    [ apply returns_last_call_ret
    | apply returns_last_call_bind; intro ].

Lemma handle_mode_a_plan_returns_last text :
  returns_last (handle_mode_a_plan remote text).
Proof. unfold handle_mode_a_plan. last_answer. Qed.

Lemma handle_mode_a_report_returns_last text stored :
  returns_last (handle_mode_a_report remote text stored).
Proof. unfold handle_mode_a_report. last_answer. Qed.

Lemma handle_mode_b_essay_returns_last text :
  returns_last (handle_mode_b_essay remote text).
Proof. unfold handle_mode_b_essay. last_answer. Qed.

Lemma handle_mode_c_ideas_returns_last text :
  returns_last (handle_mode_c_ideas remote text).
Proof. unfold handle_mode_c_ideas. last_answer. Qed.

Lemma handle_mode_d_research_returns_last text :
  returns_last (handle_mode_d_research remote text).
Proof. unfold handle_mode_d_research. last_answer. Qed.

End LastAnswer.

(* ================================================================= *)
(** ** What every request looks like *)

Section Requests.

Variable remote : backend.
Variable invalid_answer : PyException.

(** [chat] in terms of [respond]. *)
Lemma chat_respond (req : ChatRequest) (w : world) :
  chat remote invalid_answer req w
  = respond invalid_answer
      ((if str_eqb (mode req) (u8 "A") then
          if is_report_request (user_input req) then
            stored <- read_last_plan ;;
            match stored with
            | None => ret (Some NO_PLAN_NOTICE)
            | Some previous_answer =>
                handle_mode_a_report remote (user_input req) previous_answer
            end
          else
            plan <- handle_mode_a_plan remote (user_input req) ;;
            write_last_plan plan ;;;
            ret plan
        else if str_eqb (mode req) (u8 "B") then
          handle_mode_b_essay remote (user_input req)
        else if str_eqb (mode req) (u8 "C") then
          handle_mode_c_ideas remote (user_input req)
        else
          handle_mode_d_research remote (user_input req)) w).
Proof. reflexivity. Qed.

Lemma handler_outcome (m : M (option str)) (w : world) :
  traced m -> returns_last m ->
  outcome_of_request invalid_answer w (respond invalid_answer (m w)).
Proof.
  intros Hm Hlast. destruct (Hm w) as [seg [Hw Hr]].
  destruct (m w) as [[[a|]|e] w1] eqn:Hrun; simpl in Hw, Hr; subst w1;
    exists seg; simpl.
  - split; [reflexivity | exact Hr].
  - split; [reflexivity|]. split; [reflexivity|]. right.
    split; [|reflexivity].
    destruct (Hlast _ _ _ Hrun) as (done & p & q & Hcalls & Hdone).
    simpl in Hcalls. apply app_inv_head in Hcalls.
    exists done, p, q. split; [exact Hcalls | exact Hdone].
  - split; [reflexivity|]. split; [reflexivity|]. left.
    exists e. repeat split. exact Hr.
Qed.

Lemma chat_outcome (req : ChatRequest) (w : world) :
  outcome_of_request invalid_answer w (chat remote invalid_answer req w).
Proof.
  rewrite chat_respond.
  destruct (str_eqb (mode req) (u8 "A"));
    [ destruct (is_report_request (user_input req))
    | destruct (str_eqb (mode req) (u8 "B"));
      [ | destruct (str_eqb (mode req) (u8 "C")) ] ].
  - rewrite read_bind. destruct (last_plan_for_a w) as [stored|].
    + apply handler_outcome;
        [apply handle_mode_a_report_traced
        | apply handle_mode_a_report_returns_last].
    + exists []. simpl. rewrite app_nil_r. split; reflexivity.
  - rewrite store_bind.
    pose proof (handle_mode_a_plan_returns_last remote (user_input req) w)
      as Hlast.
    destruct (handle_mode_a_plan_traced remote (user_input req) w)
      as [seg [Hw Hr]].
    destruct (handle_mode_a_plan remote (user_input req) w)
      as [[[a|]|e] w1]; simpl in Hw, Hr; subst w1; exists seg; simpl.
    + split; [reflexivity | exact Hr].
    + split; [reflexivity|]. split; [reflexivity|]. right.
      split; [|reflexivity].
      destruct (Hlast _ _ eq_refl) as (done & p & q & Hcalls & Hdone).
      simpl in Hcalls. apply app_inv_head in Hcalls.
      exists done, p, q. split; [exact Hcalls | exact Hdone].
    + split; [reflexivity|]. split; [reflexivity|]. left.
      exists e. repeat split. exact Hr.
  - apply handler_outcome;
      [apply handle_mode_b_essay_traced
      | apply handle_mode_b_essay_returns_last].
  - apply handler_outcome;
      [apply handle_mode_c_ideas_traced
      | apply handle_mode_c_ideas_returns_last].
  - apply handler_outcome;
      [apply handle_mode_d_research_traced
      | apply handle_mode_d_research_returns_last].
Qed.

Lemma post_chat_outcome (raw_mode text : str) (w : world) :
  outcome_of_request invalid_answer w
    (post_chat remote invalid_answer raw_mode text w).
Proof.
  unfold post_chat. destruct (validate_ChatRequest raw_mode text) as [req|].
  - apply chat_outcome.
  - exists []. simpl. rewrite app_nil_r. repeat split.
Qed.

End Requests.

(* ================================================================= *)
(** ** Provider failures *)

(** C10. When a provider call made for a request raises, that call is
    the last one logged for the request (nothing is retried, no later
    stage runs), every call before it had answered, the response is the
    single HTTP 500 whose detail contains the description of the raised
    exception, and the plan slot keeps its content. *)
Theorem provider_failure_aborts
    (remote : backend) (invalid_answer : PyException)
    (raw_mode text : str) (w : world)
    (c : call) (e : PyException) :
  In c (new_calls w (snd (post_chat remote invalid_answer raw_mode text w))) ->
  outcome c = Raised e ->
  fst (post_chat remote invalid_answer raw_mode text w)
  = HTTPException 500 (error_detail e)
  /\ str_in (exc_str e) (error_detail e) = true
  /\ (exists done,
        new_calls w (snd (post_chat remote invalid_answer raw_mode text w))
        = done ++ [c]
        /\ forallb call_ok done = true)
  /\ last_plan_for_a (snd (post_chat remote invalid_answer raw_mode text w))
     = last_plan_for_a w.
Proof.
  intros Hin Hc.
  destruct (post_chat_outcome remote invalid_answer raw_mode text w)
    as [seg [Hcalls Hr]].
  rewrite (new_calls_app _ _ _ Hcalls) in *.
  assert (Hbad : forallb call_ok seg = true -> False).
  { intros Hall. rewrite forallb_forall in Hall. specialize (Hall c Hin).
    unfold call_ok in Hall. rewrite Hc in Hall. discriminate. }
  destruct (fst (post_chat remote invalid_answer raw_mode text w))
    as [a|code detail|].
  - contradiction (Hbad Hr).
  - destruct Hr as [-> [(e' & (done & c' & -> & Hdone & Hc') & -> & Hplan)
                       | [(done & p & q & -> & Hdone) _]]].
    + apply in_app_or in Hin. destruct Hin as [Hin | [<- | []]].
      * exfalso. rewrite forallb_forall in Hdone. specialize (Hdone c Hin).
        unfold call_ok in Hdone. rewrite Hc in Hdone. discriminate.
      * rewrite Hc in Hc'. injection Hc' as <-.
        repeat split.
        -- unfold error_detail. embedded.
        -- exists done. split; [reflexivity | exact Hdone].
        -- exact Hplan.
    + exfalso. apply Hbad. rewrite forallb_app, Hdone. reflexivity.
  - destruct Hr as [-> _]. contradiction.
Qed.

Lemma provider_failure_aborts_witness :
  let quota := {| exc_str := u8 "quota exceeded" |} in
  let failed := {| callee := Gpt;
                   prompt := essay_draft_prompt (u8 "x") (u8 "BG");
                   outcome := Raised quota |} in
  let run := post_chat (stateless flaky) not_a_string (u8 "B") (u8 "x")
                       initial_world in
  fst run = HTTPException 500 (error_detail quota)
  /\ str_in (exc_str quota) (error_detail quota) = true
  /\ (exists done,
        new_calls initial_world (snd run) = done ++ [failed]
        /\ forallb call_ok done = true)
  /\ last_plan_for_a (snd run) = last_plan_for_a initial_world.
Proof.
  intros quota failed run.
  apply (provider_failure_aborts (stateless flaky) not_a_string
           (u8 "B") (u8 "x") initial_world failed quota).
  - vm_compute. right. left. reflexivity.
  - reflexivity.
Defined.

(* ================================================================= *)
(** ** Modes B, C and D and the plan slot *)

(** C7. A request in mode "B", "C" or "D" does not read the plan slot
    (its response and its calls are the same whatever the slot holds)
    and does not write it.  With a backend that answers by provider and
    prompt alone, the essay handler gives the same response from any
    two worlds, in particular when run twice in a row. *)
Theorem other_modes_ignore_plan :
  (forall (remote : backend) (invalid_answer : PyException)
          (m text : str) (w : world),
      In m [u8 "B"; u8 "C"; u8 "D"] ->
      let req := {| mode := m; user_input := text |} in
      (forall stored : option str,
          chat remote invalid_answer req (with_plan stored w)
          = (fst (chat remote invalid_answer req w),
             with_plan stored (snd (chat remote invalid_answer req w))))
      /\ last_plan_for_a (snd (chat remote invalid_answer req w))
         = last_plan_for_a w)
  /\
  (forall (r : provider -> str -> result (option str))
    (invalid_answer : PyException) (text : str),
      let req := {| mode := u8 "B"; user_input := text |} in
      (forall w1 w2 : world,
          fst (chat (stateless r) invalid_answer req w1)
          = fst (chat (stateless r) invalid_answer req w2))
      /\ (forall w : world,
            fst (chat (stateless r) invalid_answer req
                   (snd (chat (stateless r) invalid_answer req w)))
            = fst (chat (stateless r) invalid_answer req w))).
Proof.
  split.
  - intros remote invalid_answer m text w Hin req.
    assert (Hblind : forall stored : option str,
               chat remote invalid_answer req (with_plan stored w)
               = (fst (chat remote invalid_answer req w),
                  with_plan stored (snd (chat remote invalid_answer req w)))).
    { intros stored. subst req.
      assert (Hwrap : forall h : M (option str), plan_blind h ->
                 respond invalid_answer (h (with_plan stored w))
                 = (fst (respond invalid_answer (h w)),
                    with_plan stored (snd (respond invalid_answer (h w))))).
      { intros h Hh. rewrite Hh.
        destruct (h w) as [[[a|]|e] w1]; reflexivity. }
      simpl in Hin. destruct Hin as [<- | [<- | [<- | []]]].
      - rewrite !chat_mode_b. apply Hwrap, handle_mode_b_essay_blind.
      - rewrite !chat_mode_c. apply Hwrap, handle_mode_c_ideas_blind.
      - rewrite !chat_mode_d. apply Hwrap, handle_mode_d_research_blind. }
    split; [exact Hblind|].
    specialize (Hblind (last_plan_for_a w)).
    assert (Hw : with_plan (last_plan_for_a w) w = w) by (destruct w; reflexivity).
    rewrite Hw in Hblind.
    destruct (chat remote invalid_answer req w) as [resp w1]. simpl in *.
    injection Hblind as ->. reflexivity.
  - intros r invalid_answer text req.
    assert (Hfree : forall w1 w2 : world,
               fst (chat (stateless r) invalid_answer req w1)
               = fst (chat (stateless r) invalid_answer req w2)).
    { intros w1 w2. subst req. rewrite !chat_mode_b.
      pose proof (handle_mode_b_essay_world_free r text w1 w2) as H.
      destruct (handle_mode_b_essay (stateless r) text w1)
        as [[[a1|]|e1] w1'],
               (handle_mode_b_essay (stateless r) text w2)
        as [[[a2|]|e2] w2'];
        simpl in H; try discriminate H; try injection H as ->;
        reflexivity. }
    split; [exact Hfree|]. intros w. apply Hfree.
Qed.

Lemma other_modes_ignore_plan_witness :
  chat (stateless canned) not_a_string {| mode := u8 "D"; user_input := u8 "tides" |}
       (with_plan (Some (u8 "X")) initial_world)
  = (fst (chat (stateless canned) not_a_string
               {| mode := u8 "D"; user_input := u8 "tides" |} initial_world),
     with_plan (Some (u8 "X"))
       (snd (chat (stateless canned) not_a_string
                  {| mode := u8 "D"; user_input := u8 "tides" |}
                  initial_world))).
Proof.
  apply (proj1 other_modes_ignore_plan (stateless canned) not_a_string
           (u8 "D") (u8 "tides") initial_world).
  simpl. right. right. left. reflexivity.
Defined.

(* ================================================================= *)
(** ** The life of the plan slot *)

Lemma traced_keeps_plan {A} (m : M A) (w : world) :
  traced m -> last_plan_for_a (snd (m w)) = last_plan_for_a w.
Proof. intros Hm. destruct (Hm w) as [seg [-> _]]. reflexivity. Qed.

Lemma handle_mode_a_plan_returned
    (remote : backend) (text plan : str) (w w' : world) :
  handle_mode_a_plan remote text w = (Returned (Some plan), w') ->
  exists bg ideas,
    let trace :=
      [ returned search (plan_bg_prompt text) bg;
        returned reasoning
          (plan_ideas_prompt text (format_value bg)) ideas;
        answered synthesis
          (plan_plan_prompt text (format_value bg) (format_value ideas))
          plan ] in
    replays remote (calls w) trace /\ w' = extend w trace.
Proof.
  unfold handle_mode_a_plan, call_perplexity, call_gpt, call_gemini.
  intros H.
  apply bind_returned_inv in H. destruct H as (bg & w1 & H1 & H).
  apply bind_returned_inv in H. destruct H as (ideas & w2 & H2 & H).
  apply bind_returned_inv in H. destruct H as (plan' & w3 & H3 & H).
  unfold ret in H. injection H as -> ->.
  apply call_provider_returned_inv in H1. destruct H1 as [E1 ->].
  apply call_provider_returned_inv in H2. destruct H2 as [E2 ->].
  apply call_provider_returned_inv in H3. destruct H3 as [E3 ->].
  exists bg, ideas. split.
  - simpl replays. repeat split; assumption.
  - rewrite !log_call_extend, !extend_extend. reflexivity.
Qed.

(** One request changes the slot only in the planning branch, and
    there by storing whatever the planning handler returned. *)
Lemma post_chat_plan_step
    (remote : backend) (invalid_answer : PyException)
    (raw_mode text : str) (w : world) :
  last_plan_for_a (snd (post_chat remote invalid_answer raw_mode text w))
  = last_plan_for_a w
  \/
  exists plan w1,
    raw_mode = u8 "A" /\ is_report_request text = false
    /\ handle_mode_a_plan remote text w = (Returned plan, w1)
    /\ snd (post_chat remote invalid_answer raw_mode text w)
       = with_plan plan w1.
Proof.
  unfold post_chat, validate_ChatRequest.
  destruct (existsb (str_eqb raw_mode) ModeType); [|left; reflexivity].
  rewrite chat_respond, respond_snd. cbn [mode user_input].
  destruct (str_eqb raw_mode (u8 "A")) eqn:Ea;
    [ apply str_eqb_eq in Ea; subst raw_mode;
      destruct (is_report_request text) eqn:Hreq
    | destruct (str_eqb raw_mode (u8 "B"));
      [ | destruct (str_eqb raw_mode (u8 "C")) ] ].
  - left. rewrite read_bind.
    destruct (last_plan_for_a w) as [stored|] eqn:Hslot.
    + rewrite (traced_keeps_plan _ _ (handle_mode_a_report_traced _ _ _)).
      exact Hslot.
    + exact Hslot.
  - rewrite store_bind.
    pose proof (traced_keeps_plan _ w
                  (handle_mode_a_plan_traced remote text)) as Hkeep.
    destruct (handle_mode_a_plan remote text w) as [[plan|e] w1] eqn:Hrun.
    + right. exists plan, w1. repeat split.
    + left. exact Hkeep.
  - left. apply traced_keeps_plan, handle_mode_b_essay_traced.
  - left. apply traced_keeps_plan, handle_mode_c_ideas_traced.
  - left. apply traced_keeps_plan, handle_mode_d_research_traced.
Qed.

Lemma serve_cons (remote : backend) (invalid_answer : PyException)
    (m t : str) (rest : list (str * str)) (w : world) :
  snd (serve remote invalid_answer ((m, t) :: rest) w)
  = snd (serve remote invalid_answer rest
           (snd (post_chat remote invalid_answer m t w))).
Proof.
  simpl. destruct (post_chat remote invalid_answer m t w) as [r w1].
  simpl. destruct (serve remote invalid_answer rest w1) as [rs w2].
  reflexivity.
Qed.

(** C8 fails on the code.  The adapters return the text field of the
    response as it is, and that field can be [None].  A planning request
    whose synthesis stage comes back without text stores that [None]:
    a slot that held "X" is empty afterwards, and the request ends in
    the HTTP 500 raised for the missing answer.  The next report request
    gets the notice for a missing plan. *)
Theorem planning_without_text_empties_slot (invalid_answer : PyException) :
  let holding := {| last_plan_for_a := Some (u8 "X"); calls := [] |} in
  let after :=
    {| last_plan_for_a := None;
       calls :=
         [ answered search (plan_bg_prompt (u8 "pollution")) (u8 "BG");
           answered reasoning
             (plan_ideas_prompt (u8 "pollution") (u8 "BG")) (u8 "IDEAS");
           returned synthesis
             (plan_plan_prompt (u8 "pollution") (u8 "BG") (u8 "IDEAS"))
             None ] |} in
  is_report_request (u8 "pollution") = false
  /\ post_chat (stateless textless) invalid_answer
               (u8 "A") (u8 "pollution") holding
     = (HTTPException 500 (error_detail invalid_answer), after)
  /\ serve (stateless textless) invalid_answer
           [ (u8 "A", u8 "pollution");
             (u8 "A", follow_up_sentence (u8 "1")) ] holding
     = ([ HTTPException 500 (error_detail invalid_answer);
          ChatResponse NO_PLAN_NOTICE ], after).
Proof.
  intros holding after. repeat split; vm_compute; reflexivity.
Qed.

(* ================================================================= *)
(** ** What the prompts embed *)

(** An interpolated text inside the prompt of a stage, or a trivial
    conjunct. *)
Ltac embedded_in_prompt :=
  lazymatch goal with
  | |- true = true => reflexivity
  | |- str_in _ (?template _ _ _) = true => unfold template; embedded
  | |- str_in _ (?template _ _) = true => unfold template; embedded
  | |- str_in _ (?template _) = true => unfold template; embedded
  end.

Ltac next_stage :=
  match goal with
  | |- context [bind (call_provider ?r ?p ?q) ?k ?w] =>
      pattern (bind (call_provider r p q) k w);
      apply bind_call_cases; intros ? _; cbv beta
  end.

(** Runs a handler through every pattern of outcomes and reads the
    logged segment off the final world. *)
Ltac all_runs :=
  unfold call_perplexity, call_gpt, call_gemini, call_claude;
  repeat next_stage;
  unfold ret; cbn [snd fst];
  rewrite ?log_call_extend, ?extend_extend, ?new_calls_extend;
  cbn [stage_embeddings history_embedded forallb app rev latest
       prompt outcome returned answered];
  repeat (apply andb_true_intro; split);
  embedded_in_prompt.

Ltac in_templates :=
  lazymatch goal with
  | |- In ?t (?h :: _) =>
      first [ constr_eq t h; left; reflexivity | right; in_templates ]
  end.

Ltac pick_template :=
  lazymatch goal with
  | |- True => exact I
  | |- exists template previous, _ /\ _ /\ ?T ?x = _ =>
      exists T, x; split;
      [ unfold previous_only_templates; in_templates
      | split; reflexivity ]
  end.

(** The same enumeration for [stage_templates]. *)
Ltac all_templates :=
  unfold call_perplexity, call_gpt, call_gemini, call_claude;
  repeat next_stage;
  unfold ret; cbn [snd fst];
  rewrite ?log_call_extend, ?extend_extend, ?new_calls_extend;
  cbn [stage_templates app rev latest prompt outcome returned answered];
  repeat lazymatch goal with |- _ /\ _ => split end;
  pick_template.

Section Chains.

Variable remote : backend.

Lemma handle_mode_a_plan_history text w :
  history_embedded text []
    (new_calls w (snd (handle_mode_a_plan remote text w))) = true.
Proof. unfold handle_mode_a_plan. all_runs. Qed.

Lemma handle_mode_a_plan_embeddings text w :
  stage_embeddings [text] [WholeHistory; WholeHistory; WholeHistory]
    (new_calls w (snd (handle_mode_a_plan remote text w))) = true.
Proof. unfold handle_mode_a_plan. all_runs. Qed.

Lemma handle_mode_a_report_embeddings text stored w :
  stage_embeddings [text; stored] [WholeHistory; PreviousOnly]
    (new_calls w (snd (handle_mode_a_report remote text stored w))) = true.
Proof. unfold handle_mode_a_report. all_runs. Qed.

Lemma handle_mode_b_essay_embeddings text w :
  stage_embeddings [text]
    [WholeHistory; WholeHistory; PreviousOnly; PreviousOnly]
    (new_calls w (snd (handle_mode_b_essay remote text w))) = true.
Proof. unfold handle_mode_b_essay. all_runs. Qed.

Lemma handle_mode_c_ideas_embeddings text w :
  stage_embeddings [text] [WholeHistory; WholeHistory; PreviousOnly]
    (new_calls w (snd (handle_mode_c_ideas remote text w))) = true.
Proof. unfold handle_mode_c_ideas. all_runs. Qed.

Lemma handle_mode_d_research_embeddings text w :
  stage_embeddings [text] [WholeHistory; PreviousOnly]
    (new_calls w (snd (handle_mode_d_research remote text w))) = true.
Proof. unfold handle_mode_d_research. all_runs. Qed.

Lemma handle_mode_a_plan_templates text w :
  stage_templates [text] [WholeHistory; WholeHistory; WholeHistory]
    (new_calls w (snd (handle_mode_a_plan remote text w))).
Proof. unfold handle_mode_a_plan. all_templates. Qed.

Lemma handle_mode_a_report_templates text stored w :
  stage_templates [text; stored] [WholeHistory; PreviousOnly]
    (new_calls w (snd (handle_mode_a_report remote text stored w))).
Proof. unfold handle_mode_a_report. all_templates. Qed.

Lemma handle_mode_b_essay_templates text w :
  stage_templates [text]
    [WholeHistory; WholeHistory; PreviousOnly; PreviousOnly]
    (new_calls w (snd (handle_mode_b_essay remote text w))).
Proof. unfold handle_mode_b_essay. all_templates. Qed.

Lemma handle_mode_c_ideas_templates text w :
  stage_templates [text] [WholeHistory; WholeHistory; PreviousOnly]
    (new_calls w (snd (handle_mode_c_ideas remote text w))).
Proof. unfold handle_mode_c_ideas. all_templates. Qed.

Lemma handle_mode_d_research_templates text w :
  stage_templates [text] [WholeHistory; PreviousOnly]
    (new_calls w (snd (handle_mode_d_research remote text w))).
Proof. unfold handle_mode_d_research. all_templates. Qed.

End Chains.

Lemma store_plan_calls (h : M (option str)) (w : world) :
  calls (snd ((plan <- h ;; write_last_plan plan ;;; ret plan) w))
  = calls (snd (h w)).
Proof. rewrite store_bind. destruct (h w) as [[a|e] w1]; reflexivity. Qed.

Lemma chat_mode_a_plan_calls
    (remote : backend) (invalid_answer : PyException)
    (text : str) (w : world) :
  is_report_request text = false ->
  new_calls w
    (snd (chat remote invalid_answer
               {| mode := u8 "A"; user_input := text |} w))
  = new_calls w (snd (handle_mode_a_plan remote text w)).
Proof.
  intros Hno. rewrite chat_mode_a, Hno, respond_snd.
  unfold new_calls. now rewrite store_plan_calls.
Qed.

Lemma chat_embeddings
    (remote : backend) (invalid_answer : PyException)
    (req : ChatRequest) (w : world) :
  stage_embeddings
    (originals_of (mode req) (user_input req) (last_plan_for_a w))
    (embeddings_of (mode req) (user_input req) (last_plan_for_a w))
    (new_calls w (snd (chat remote invalid_answer req w))) = true.
Proof.
  rewrite chat_respond, respond_snd. unfold originals_of, embeddings_of.
  destruct (str_eqb (mode req) (u8 "A"));
    [ destruct (is_report_request (user_input req))
    | destruct (str_eqb (mode req) (u8 "B"));
      [ | destruct (str_eqb (mode req) (u8 "C")) ] ];
    cbn [andb].
  - rewrite read_bind. destruct (last_plan_for_a w) as [stored|].
    + apply handle_mode_a_report_embeddings.
    + unfold ret. cbn [snd]. now rewrite new_calls_same.
  - unfold new_calls. rewrite store_plan_calls.
    apply handle_mode_a_plan_embeddings.
  - apply handle_mode_b_essay_embeddings.
  - apply handle_mode_c_ideas_embeddings.
  - apply handle_mode_d_research_embeddings.
Qed.

Lemma chat_templates
    (remote : backend) (invalid_answer : PyException)
    (req : ChatRequest) (w : world) :
  stage_templates
    (originals_of (mode req) (user_input req) (last_plan_for_a w))
    (embeddings_of (mode req) (user_input req) (last_plan_for_a w))
    (new_calls w (snd (chat remote invalid_answer req w))).
Proof.
  rewrite chat_respond, respond_snd. unfold originals_of, embeddings_of.
  destruct (str_eqb (mode req) (u8 "A"));
    [ destruct (is_report_request (user_input req))
    | destruct (str_eqb (mode req) (u8 "B"));
      [ | destruct (str_eqb (mode req) (u8 "C")) ] ];
    cbn [andb].
  - rewrite read_bind. destruct (last_plan_for_a w) as [stored|].
    + apply handle_mode_a_report_templates.
    + unfold ret. cbn [snd]. rewrite new_calls_same. exact I.
  - unfold new_calls. rewrite store_plan_calls.
    apply handle_mode_a_plan_templates.
  - apply handle_mode_b_essay_templates.
  - apply handle_mode_c_ideas_templates.
  - apply handle_mode_d_research_templates.
Qed.

(** C5, as amended.  What a stage's prompt embeds is fixed by its
    template.  The first stage of every pipeline, every stage of the
    planning pipeline and the second stage of the essay and ideas
    pipelines embed verbatim everything there is so far: the user input
    (for the report pipeline also the stored plan) and the answers of
    all earlier stages.  The other stages (report stage 2, essay stages
    3 and 4, ideas stage 3, research stage 2) embed verbatim the answer
    of the stage just before them and nothing older: each of their
    prompts is a template with one interpolation point filled with that
    answer, and in the runs of the four pipelines on distinguishable
    texts these prompts contain neither the input nor any earlier
    answer. *)
Theorem prompts_chain_stage_to_stage :
  (forall (remote : backend) (invalid_answer : PyException)
          (req : ChatRequest) (w : world),
      stage_embeddings
        (originals_of (mode req) (user_input req) (last_plan_for_a w))
        (embeddings_of (mode req) (user_input req) (last_plan_for_a w))
        (new_calls w (snd (chat remote invalid_answer req w))) = true)
  /\
  (forall (remote : backend) (invalid_answer : PyException)
          (req : ChatRequest) (w : world),
      stage_templates
        (originals_of (mode req) (user_input req) (last_plan_for_a w))
        (embeddings_of (mode req) (user_input req) (last_plan_for_a w))
        (new_calls w (snd (chat remote invalid_answer req w))))
  /\
  (forall (remote : backend) (invalid_answer : PyException)
          (text : str) (w : world),
      is_report_request text = false ->
      history_embedded text []
        (new_calls w
           (snd (chat remote invalid_answer
                      {| mode := u8 "A"; user_input := text |} w)))
      = true)
  /\
  (omits_older {| mode := u8 "B"; user_input := u8 "pollution" |}
               initial_world = true
   /\ omits_older {| mode := u8 "C"; user_input := u8 "pollution" |}
                  initial_world = true
   /\ omits_older {| mode := u8 "D"; user_input := u8 "pollution" |}
                  initial_world = true
   /\ omits_older
        {| mode := u8 "A"; user_input := u8 "pollution 보고서 작성해줘" |}
        {| last_plan_for_a := Some (u8 "STORED"); calls := [] |} = true).
Proof.
  split; [exact chat_embeddings | split; [exact chat_templates | split]].
  - intros remote invalid_answer text w Hno.
    rewrite (chat_mode_a_plan_calls _ _ _ _ Hno).
    apply handle_mode_a_plan_history.
  - repeat split; vm_compute; reflexivity.
Qed.

Lemma prompts_chain_stage_to_stage_witness :
  is_report_request (u8 "pollution") = false /\
  history_embedded (u8 "pollution") []
    (new_calls initial_world
       (snd (chat (stateless labelled) not_a_string
                  {| mode := u8 "A"; user_input := u8 "pollution" |}
                  initial_world)))
  = true.
Proof.
  assert (Hno : is_report_request (u8 "pollution") = false)
    by (vm_compute; reflexivity).
  split; [exact Hno|].
  apply (proj1 (proj2 (proj2 prompts_chain_stage_to_stage))
           (stateless labelled)
           not_a_string (u8 "pollution") initial_world Hno).
Defined.

(** C5, as stated, fails.  In the essay pipeline with answers "FACTS",
    "DRAFT", "CHECKED", "FINAL" to the input "pollution", the prompt of
    the last stage contains the answer "CHECKED" of the stage before it
    but neither the input nor the two earlier answers; likewise the last
    prompt of the report pipeline contains only the outline. *)
Lemma essay_final_prompt_omits_history :
  let run := chat (stateless labelled) not_a_string
                  {| mode := u8 "B"; user_input := u8 "pollution" |}
                  initial_world in
  map callee (calls (snd run)) = [search; reasoning; synthesis; long_form]
  /\ map prompt (calls (snd run))
     = [ essay_facts_prompt (u8 "pollution");
         essay_draft_prompt (u8 "pollution") (u8 "FACTS");
         essay_checked_prompt (u8 "DRAFT");
         essay_final_prompt (u8 "CHECKED") ]
  /\ str_in (u8 "pollution") (essay_final_prompt (u8 "CHECKED")) = false
  /\ str_in (u8 "FACTS") (essay_final_prompt (u8 "CHECKED")) = false
  /\ str_in (u8 "DRAFT") (essay_final_prompt (u8 "CHECKED")) = false
  /\ str_in (u8 "pollution") (report_final_prompt (u8 "CHECKED")) = false
  /\ history_embedded (u8 "pollution") []
       (new_calls initial_world (snd run)) = false
  /\ ~ (forall (remote : backend) (invalid_answer : PyException)
               (req : ChatRequest) (w : world),
          history_embedded (user_input req) []
            (new_calls w (snd (chat remote invalid_answer req w))) = true).
Proof.
  intros run.
  assert (Hfalse : history_embedded (u8 "pollution") []
                     (new_calls initial_world (snd run)) = false)
    by (vm_compute; reflexivity).
  repeat split; try (vm_compute; reflexivity).
  intros Hall.
  specialize (Hall (stateless labelled) not_a_string
                {| mode := u8 "B"; user_input := u8 "pollution" |}
                initial_world).
  fold run in Hall. simpl user_input in Hall.
  rewrite Hfalse in Hall. discriminate Hall.
Qed.

(* ================================================================= *)
(** ** More on the classifier *)

Lemma str_in_trans (a b c : str) :
  str_in a b = true -> str_in b c = true -> str_in a c = true.
Proof.
  rewrite !str_in_iff. intros (p1 & q1 & ->) (p2 & q2 & ->).
  exists (p2 ++ p1), (q1 ++ q2). now rewrite <- !app_assoc.
Qed.

Lemma str_in_length (needle hay : str) :
  str_in needle hay = true -> (List.length needle <= List.length hay)%nat.
Proof.
  rewrite str_in_iff. intros (pre & post & ->).
  rewrite !length_app. lia.
Qed.

Lemma str_in_piece (x piece rest : str) :
  str_in x piece = true -> str_in x (piece ++ rest) = true.
Proof.
  rewrite !str_in_iff. intros (pre & post & ->).
  exists pre, (post ++ rest). now rewrite <- !app_assoc.
Qed.

Lemma is_report_request_keyword (keyword text : str) :
  In keyword REPORT_KEYWORDS ->
  str_in keyword text = true ->
  is_report_request text = true.
Proof.
  intros Hin Hsub. unfold is_report_request. apply existsb_exists.
  exists keyword. split; assumption.
Qed.

(** Four of the seven keywords are longer forms of the three others, so
    the classifier answers as if only "보고서", "보고 서" and "작성해"
    were listed. *)
Theorem is_report_request_three_keywords (text : str) :
  is_report_request text
  = str_in (u8 "보고서") text
    || str_in (u8 "보고 서") text
    || str_in (u8 "작성해") text.
Proof.
  pose proof (str_in_trans (u8 "보고서") (u8 "보고서를") text eq_refl) as H3.
  pose proof (str_in_trans (u8 "보고서") (u8 "보고서로") text eq_refl) as H4.
  pose proof (str_in_trans (u8 "작성해") (u8 "작성해줘") text eq_refl) as H6.
  pose proof (str_in_trans (u8 "작성해") (u8 "작성해 줘") text eq_refl) as H7.
  unfold is_report_request, REPORT_KEYWORDS. cbn [existsb].
  destruct (str_in (u8 "보고서") text) eqn:E1; [reflexivity|].
  destruct (str_in (u8 "보고 서") text) eqn:E2; [reflexivity|].
  destruct (str_in (u8 "보고서를") text) eqn:E3;
    [discriminate (H3 eq_refl)|].
  destruct (str_in (u8 "보고서로") text) eqn:E4;
    [discriminate (H4 eq_refl)|].
  destruct (str_in (u8 "작성해") text) eqn:E5; [reflexivity|].
  destruct (str_in (u8 "작성해줘") text) eqn:E6;
    [discriminate (H6 eq_refl)|].
  destruct (str_in (u8 "작성해 줘") text) eqn:E7;
    [discriminate (H7 eq_refl)|].
  reflexivity.
Qed.

(** A text of fewer than three code points is never a report request:
    every keyword has at least three. *)
Theorem is_report_request_short_text (text : str) :
  (List.length text < 3)%nat ->
  is_report_request text = false.
Proof.
  intros Hshort. destruct (is_report_request text) eqn:E; [|reflexivity].
  unfold is_report_request in E. apply existsb_exists in E.
  destruct E as [keyword [Hin Hsub]]. apply str_in_length in Hsub.
  assert (Hlong : (3 <= List.length keyword)%nat).
  { unfold REPORT_KEYWORDS in Hin. cbn [In] in Hin.
    repeat (destruct Hin as [<- | Hin]; [vm_compute; lia|]).
    contradiction. }
  lia.
Qed.

Lemma is_report_request_short_text_witness :
  is_report_request (u8 "보고") = false.
Proof.
  apply (is_report_request_short_text (u8 "보고")).
  vm_compute. lia.
Defined.

(** The sentence that the last planning prompt tells the model to print
    for the user, with anything in place of X, is a report request; and
    that sentence is part of the prompt whatever the topic and the
    earlier answers are. *)
Theorem follow_up_sentence_is_report_request :
  (forall choice : str,
      is_report_request (follow_up_sentence choice) = true)
  /\
  (forall text bg ideas : str,
      str_in (follow_up_sentence (u8 "X")) (plan_plan_prompt text bg ideas)
      = true).
Proof.
  split.
  - intros choice. apply (is_report_request_keyword (u8 "보고서")).
    + unfold REPORT_KEYWORDS. left. reflexivity.
    + unfold follow_up_sentence. do 2 apply str_in_later.
      vm_compute. reflexivity.
  - intros text bg ideas. unfold plan_plan_prompt.
    do 8 apply str_in_later. apply str_in_piece.
    vm_compute. reflexivity.
Qed.

(* ================================================================= *)
(** ** Which providers a request calls *)

Section Pipelines.

Variable remote : backend.
Variable invalid_answer : PyException.

Lemma follows_ret {A} (a : A) : follows [] (ret a).
Proof. intros w. exists []. simpl. now rewrite extend_nil. Qed.

Lemma follows_call_bind {B} (p : provider) (q : str)
    (k : option str -> M B) (chain : list provider) :
  (forall v, follows chain (k v)) ->
  follows (p :: chain) (bind (call_provider remote p q) k).
Proof.
  intros Hk w. unfold bind, call_provider.
  destruct (remote (calls w) p q) as [v|e].
  - destruct (Hk v (log_call (returned p q v) w)) as [seg [Hw Hr]].
    fold (returned p q v).
    exists (returned p q v :: seg).
    split; [rewrite Hw, log_call_extend, extend_extend; reflexivity|].
    destruct (fst (k v (log_call (returned p q v) w))) as [b|e].
    + cbn [map callee returned app]. rewrite Hr. reflexivity.
    + destruct Hr as [rest ->]. exists rest. reflexivity.
  - exists [{| callee := p; prompt := q; outcome := Raised e |}].
    simpl. split; [reflexivity|]. now exists chain.
Qed.

Ltac follow_chain :=
  unfold call_perplexity, call_gpt, call_gemini, call_claude;
  repeat (apply follows_call_bind; intro);
  apply follows_ret.

Lemma handle_mode_a_plan_follows text :
  follows [search; reasoning; synthesis] (handle_mode_a_plan remote text).
Proof. unfold handle_mode_a_plan. follow_chain. Qed.

Lemma handle_mode_a_report_follows text stored :
  follows [synthesis; long_form] (handle_mode_a_report remote text stored).
Proof. unfold handle_mode_a_report. follow_chain. Qed.

Lemma handle_mode_b_essay_follows text :
  follows [search; reasoning; synthesis; long_form]
          (handle_mode_b_essay remote text).
Proof. unfold handle_mode_b_essay. follow_chain. Qed.

Lemma handle_mode_c_ideas_follows text :
  follows [reasoning; synthesis; long_form] (handle_mode_c_ideas remote text).
Proof. unfold handle_mode_c_ideas. follow_chain. Qed.

Lemma handle_mode_d_research_follows text :
  follows [search; synthesis] (handle_mode_d_research remote text).
Proof. unfold handle_mode_d_research. follow_chain. Qed.

Lemma follows_response (chain : list provider) (m : M (option str))
    (w : world) :
  follows chain m ->
  prefix_of_pipeline chain w (respond invalid_answer (m w)).
Proof.
  intros Hm. destruct (Hm w) as [seg [Hw Hr]].
  destruct (m w) as [[[a|]|e] w1]; simpl in Hw, Hr; subst w1;
    unfold prefix_of_pipeline; simpl; rewrite new_calls_extend.
  - exists []. rewrite app_nil_r. split; [now rewrite Hr | reflexivity].
  - exists []. rewrite app_nil_r. split; [now rewrite Hr | reflexivity].
  - destruct Hr as [rest ->]. exists rest. split; [reflexivity|].
    intros answer H. discriminate H.
Qed.

Lemma chat_follows_pipeline (req : ChatRequest) (w : world) :
  prefix_of_pipeline
    (pipeline_of (mode req) (user_input req) (last_plan_for_a w)) w
    (chat remote invalid_answer req w).
Proof.
  rewrite chat_respond. unfold pipeline_of.
  destruct (str_eqb (mode req) (u8 "A"));
    [ destruct (is_report_request (user_input req))
    | destruct (str_eqb (mode req) (u8 "B"));
      [ | destruct (str_eqb (mode req) (u8 "C")) ] ].
  - rewrite read_bind. destruct (last_plan_for_a w) as [stored|].
    + apply follows_response, handle_mode_a_report_follows.
    + apply (follows_response [] (ret (Some NO_PLAN_NOTICE))), follows_ret.
  - destruct (follows_response _ _ w
                (handle_mode_a_plan_follows (user_input req)))
      as [rest [Hchain Hall]].
    rewrite respond_snd in Hchain.
    exists rest. rewrite respond_snd. split.
    + unfold new_calls in *. now rewrite store_plan_calls.
    + intros answer H. rewrite store_bind in H.
      destruct (handle_mode_a_plan remote (user_input req) w)
        as [[[a|]|e] w1]; simpl in H; try discriminate H.
      now apply (Hall a).
  - apply follows_response, handle_mode_b_essay_follows.
  - apply follows_response, handle_mode_c_ideas_follows.
  - apply follows_response, handle_mode_d_research_follows.
Qed.

Lemma pipeline_of_NoDup (m text : str) (stored : option str) :
  NoDup (pipeline_of m text stored).
Proof.
  unfold pipeline_of, search, reasoning, synthesis, long_form.
  destruct (str_eqb m (u8 "A"));
    [ destruct (is_report_request text); [destruct stored|]
    | destruct (str_eqb m (u8 "B"));
      [ | destruct (str_eqb m (u8 "C")) ] ];
    repeat (constructor; [simpl; intuition discriminate|]); constructor.
Qed.

Lemma pipeline_of_length (m text : str) (stored : option str) :
  (List.length (pipeline_of m text stored) <= 4)%nat.
Proof.
  unfold pipeline_of.
  destruct (str_eqb m (u8 "A"));
    [ destruct (is_report_request text); [destruct stored|]
    | destruct (str_eqb m (u8 "B"));
      [ | destruct (str_eqb m (u8 "C")) ] ]; simpl; lia.
Qed.

End Pipelines.

(** The providers a request calls, and their order, are fixed by the
    mode, the classifier and the plan slot alone: whatever the providers
    answer, the providers called are the first ones of [pipeline_of], and
    all of them when the response is a [ChatResponse]. *)
Theorem chat_calls_prefix_of_pipeline
    (remote : backend) (invalid_answer : PyException) (req : ChatRequest) (w : world) :
  exists rest,
    pipeline_of (mode req) (user_input req) (last_plan_for_a w)
    = map callee (new_calls w (snd (chat remote invalid_answer req w))) ++ rest
    /\ (forall answer,
          fst (chat remote invalid_answer req w) = ChatResponse answer -> rest = []).
Proof. exact (chat_follows_pipeline remote invalid_answer req w). Qed.

Lemma chat_calls_prefix_of_pipeline_witness :
  exists rest,
    pipeline_of (u8 "D") (u8 "tides") None
    = map callee
        (new_calls initial_world
           (snd (chat (stateless canned) not_a_string
                      {| mode := u8 "D"; user_input := u8 "tides" |}
                      initial_world)))
      ++ rest
    /\ rest = [].
Proof.
  destruct (chat_calls_prefix_of_pipeline (stateless canned) not_a_string
              {| mode := u8 "D"; user_input := u8 "tides" |} initial_world)
    as [rest [Hchain Hall]].
  exists rest. split; [exact Hchain|].
  apply (Hall (u8 "PLAN_OUT")). vm_compute. reflexivity.
Defined.

(** No request makes more than four provider calls, and none calls the
    same provider twice. *)
Theorem post_chat_call_budget
    (remote : backend) (invalid_answer : PyException) (raw_mode text : str) (w : world) :
  (List.length
     (new_calls w (snd (post_chat remote invalid_answer raw_mode text w)))
   <= 4)%nat
  /\ NoDup
       (map callee
          (new_calls w
             (snd (post_chat remote invalid_answer raw_mode text w)))).
Proof.
  unfold post_chat. destruct (validate_ChatRequest raw_mode text) as [req|].
  - destruct (chat_follows_pipeline remote invalid_answer req w)
      as [rest [Hchain _]].
    pose proof (pipeline_of_length (mode req) (user_input req)
                  (last_plan_for_a w)) as Hlen.
    pose proof (pipeline_of_NoDup (mode req) (user_input req)
                  (last_plan_for_a w)) as Hnd.
    rewrite Hchain in Hlen, Hnd. split.
    + rewrite length_app, length_map in Hlen. lia.
    + now apply NoDup_app_remove_r in Hnd.
  - simpl. rewrite new_calls_same. split; [simpl; lia | constructor].
Qed.


(* ================================================================= *)
(** ** Where a response comes from *)

Section Responses.

Variable remote : backend.
Variable invalid_answer : PyException.

Lemma returns_last_response (m : M (option str)) (w w' : world)
    (answer : str) :
  returns_last m ->
  respond invalid_answer (m w) = (ChatResponse answer, w') ->
  exists done p q, calls w' = calls w ++ done ++ [answered p q answer].
Proof.
  intros Hm H. apply respond_chat_response in H.
  destruct (Hm _ _ _ H) as (done & p & q & Hcalls & _).
  now exists done, p, q.
Qed.

Lemma chat_answer_source (req : ChatRequest) (w w' : world) (answer : str) :
  chat remote invalid_answer req w = (ChatResponse answer, w') ->
  (answer = NO_PLAN_NOTICE /\ w' = w /\ last_plan_for_a w = None)
  \/ exists done p q, calls w' = calls w ++ done ++ [answered p q answer].
Proof.
  rewrite chat_respond.
  destruct (str_eqb (mode req) (u8 "A"));
    [ destruct (is_report_request (user_input req))
    | destruct (str_eqb (mode req) (u8 "B"));
      [ | destruct (str_eqb (mode req) (u8 "C")) ] ].
  - rewrite read_bind. destruct (last_plan_for_a w) as [stored|].
    + intros H. right.
      exact (returns_last_response _ _ _ _
               (handle_mode_a_report_returns_last _ _ _) H).
    + unfold ret. intros H. apply respond_chat_response in H.
      injection H as <- <-. left. repeat split.
  - rewrite store_bind. intros H. right.
    apply respond_chat_response in H.
    destruct (handle_mode_a_plan remote (user_input req) w)
      as [[plan|e] w1] eqn:Hrun; [|discriminate H].
    injection H as -> <-.
    destruct (handle_mode_a_plan_returns_last _ _ _ _ _ Hrun)
      as (done & p & q & Hcalls & _).
    now exists done, p, q.
  - intros H. right.
    exact (returns_last_response _ _ _ _
             (handle_mode_b_essay_returns_last _ _) H).
  - intros H. right.
    exact (returns_last_response _ _ _ _
             (handle_mode_c_ideas_returns_last _ _) H).
  - intros H. right.
    exact (returns_last_response _ _ _ _
             (handle_mode_d_research_returns_last _ _) H).
Qed.

End Responses.

(** A successful answer is never composed by the dispatcher: it is the
    fixed notice, returned without any call and only while no plan is
    stored, or it is exactly the text answered by the last provider call
    of the request. *)
Theorem answer_is_notice_or_last_output
    (remote : backend) (invalid_answer : PyException)
    (raw_mode text answer : str) (w w' : world) :
  post_chat remote invalid_answer raw_mode text w
  = (ChatResponse answer, w') ->
  (answer = NO_PLAN_NOTICE /\ w' = w /\ last_plan_for_a w = None)
  \/ exists done p q, new_calls w w' = done ++ [answered p q answer].
Proof.
  unfold post_chat. destruct (validate_ChatRequest raw_mode text) as [req|].
  - intros H.
    destruct (chat_answer_source remote invalid_answer req w w' answer H)
      as [Hnotice | (done & p & q & Hcalls)].
    + left. exact Hnotice.
    + right. exists done, p, q. now apply new_calls_app.
  - intros H. discriminate H.
Qed.

Lemma answer_is_notice_or_last_output_witness :
  exists done p q,
    new_calls initial_world
      (extend initial_world
         (research_trace (u8 "tides") (u8 "BG") (u8 "PLAN_OUT")))
    = done ++ [answered p q (u8 "PLAN_OUT")].
Proof.
  destruct (answer_is_notice_or_last_output (stateless canned) not_a_string
              (u8 "D") (u8 "tides") (u8 "PLAN_OUT") initial_world
              (extend initial_world
                 (research_trace (u8 "tides") (u8 "BG") (u8 "PLAN_OUT"))))
    as [(Hnotice & _) | Hlast].
  - vm_compute. reflexivity.
  - vm_compute in Hnotice. discriminate Hnotice.
  - exact Hlast.
Defined.

(** An error response has two causes and no other.  Whenever the route
    raises an [HTTPException], its status is 500 and either the last
    provider call logged for the request raised an exception [e], every
    call before it having returned, and the detail is the fixed prefix
    followed by [str(e)]; or no call raised, the last call of the
    request returned [None], and the detail is the fixed prefix followed
    by the description of the error for the missing answer. *)
Theorem http_exception_causes
    (remote : backend) (invalid_answer : PyException)
    (raw_mode text : str) (w : world)
    (code : N) (detail : str) :
  fst (post_chat remote invalid_answer raw_mode text w)
  = HTTPException code detail ->
  code = 500
  /\ exists done c,
       new_calls w (snd (post_chat remote invalid_answer raw_mode text w))
       = done ++ [c]
       /\ forallb call_ok done = true
       /\ ((exists e, outcome c = Raised e /\ detail = error_detail e)
           \/ (outcome c = Returned None
               /\ detail = error_detail invalid_answer)).
Proof.
  intros H.
  destruct (post_chat_outcome remote invalid_answer raw_mode text w)
    as [seg [Hcalls Hr]].
  rewrite H in Hr. rewrite (new_calls_app _ _ _ Hcalls).
  destruct Hr as [-> [(e & (done & c & -> & Hdone & Hc) & -> & _)
                     | [(done & p & q & -> & Hdone) ->]]];
    (split; [reflexivity|]).
  - exists done, c. repeat split; try assumption. left. now exists e.
  - exists done, (returned p q None). repeat split; try assumption.
    right. split; reflexivity.
Qed.

Lemma http_exception_causes_witness :
  exists done c,
    new_calls {| last_plan_for_a := Some (u8 "X"); calls := [] |}
      (snd (post_chat (stateless textless) not_a_string
              (u8 "A") (u8 "pollution")
              {| last_plan_for_a := Some (u8 "X"); calls := [] |}))
    = done ++ [c]
    /\ forallb call_ok done = true
    /\ ((exists e, outcome c = Raised e
                   /\ error_detail not_a_string = error_detail e)
        \/ (outcome c = Returned None
            /\ error_detail not_a_string = error_detail not_a_string)).
Proof.
  apply (http_exception_causes (stateless textless) not_a_string
           (u8 "A") (u8 "pollution")
           {| last_plan_for_a := Some (u8 "X"); calls := [] |} 500
           (error_detail not_a_string)).
  vm_compute. reflexivity.
Defined.

(* ================================================================= *)
(** ** Requests in sequence *)

Lemma replays_app (remote : backend) (history s1 s2 : list call) :
  replays remote history (s1 ++ s2) <->
  replays remote history s1 /\ replays remote (history ++ s1) s2.
Proof.
  revert history. induction s1 as [|c s1 IH]; intros history; simpl.
  - rewrite app_nil_r. tauto.
  - rewrite IH, <- app_assoc. simpl. tauto.
Qed.

Lemma chat_report_run
    (remote : backend) (invalid_answer : PyException) (w : world)
    (text stored outline final_report : str) :
  is_report_request text = true ->
  last_plan_for_a w = Some stored ->
  replays remote (calls w) (report_trace text stored outline final_report) ->
  chat remote invalid_answer {| mode := u8 "A"; user_input := text |} w
  = (ChatResponse final_report,
     extend w (report_trace text stored outline final_report)).
Proof.
  intros Hyes Hslot Hrun. rewrite chat_mode_a, Hyes.
  unfold bind at 1. unfold read_last_plan. rewrite Hslot.
  now rewrite (handle_mode_a_report_run remote _ _ _ _ _ Hrun).
Qed.

(** The two-step conversation: a planning request followed by a report
    request.  When the five stages answer, the second request works on
    the plan the first one returned, whatever that text is and whatever
    the slot held before; the log shows the three planning calls, then
    the two report calls, and the slot keeps the plan. *)
Theorem plan_then_report
    (remote : backend) (invalid_answer : PyException) (w : world)
    (topic follow_up bg ideas plan outline final_report : str) :
  is_report_request topic = false ->
  is_report_request follow_up = true ->
  replays remote (calls w)
    (plan_trace topic bg ideas plan
     ++ report_trace follow_up plan outline final_report) ->
  serve remote invalid_answer [(u8 "A", topic); (u8 "A", follow_up)] w
  = ([ChatResponse plan; ChatResponse final_report],
     {| last_plan_for_a := Some plan;
        calls := calls w
                 ++ plan_trace topic bg ideas plan
                 ++ report_trace follow_up plan outline final_report |}).
Proof.
  intros Hno Hyes Hrun. apply replays_app in Hrun.
  destruct Hrun as [Hplan Hreport].
  assert (HA : In (u8 "A") ModeType) by (left; reflexivity).
  cbn [serve]. rewrite (post_chat_listed remote invalid_answer _ _ _ HA).
  rewrite (chat_plan_run remote invalid_answer w topic bg ideas plan
             Hno Hplan).
  rewrite (post_chat_listed remote invalid_answer _ _ _ HA).
  rewrite (chat_report_run remote invalid_answer
             {| last_plan_for_a := Some plan;
                calls := calls w ++ plan_trace topic bg ideas plan |}
             follow_up plan outline final_report Hyes eq_refl Hreport).
  unfold extend. cbn [calls last_plan_for_a]. now rewrite <- app_assoc.
Qed.

Lemma plan_then_report_witness :
  serve (stateless canned) not_a_string
    [ (u8 "A", u8 "pollution");
      (u8 "A", follow_up_sentence (u8 "2")) ]
    initial_world
  = ([ChatResponse (u8 "PLAN_OUT"); ChatResponse (u8 "REPORT")],
     {| last_plan_for_a := Some (u8 "PLAN_OUT");
        calls := plan_trace (u8 "pollution") (u8 "BG") (u8 "IDEAS")
                            (u8 "PLAN_OUT")
                 ++ report_trace (follow_up_sentence (u8 "2"))
                      (u8 "PLAN_OUT") (u8 "PLAN_OUT") (u8 "REPORT") |}).
Proof.
  apply (plan_then_report (stateless canned) not_a_string initial_world
           (u8 "pollution") (follow_up_sentence (u8 "2"))
           (u8 "BG") (u8 "IDEAS") (u8 "PLAN_OUT")
           (u8 "PLAN_OUT") (u8 "REPORT")).
  - vm_compute. reflexivity.
  - vm_compute. reflexivity.
  - unfold plan_trace, report_trace. simpl. repeat split.
Defined.

(** Only a planning request can change the plan slot: a sequence of
    requests in which every mode "A" request is a report request leaves
    the slot as it was, whether the providers answer or fail. *)
Theorem slot_kept_without_planning
    (remote : backend) (invalid_answer : PyException)
    (reqs : list (str * str)) (w : world) :
  Forall (fun req => fst req = u8 "A" -> is_report_request (snd req) = true)
         reqs ->
  last_plan_for_a (snd (serve remote invalid_answer reqs w)) = last_plan_for_a w.
Proof.
  revert w. induction reqs as [|[m t] rest IH]; intros w Hall.
  - reflexivity.
  - inversion Hall as [|req reqs' Hhead Htail]; subst.
    rewrite serve_cons, (IH _ Htail).
    destruct (post_chat_plan_step remote invalid_answer m t w)
      as [Hsame | (plan & w1 & -> & Hno & _)].
    + exact Hsame.
    + simpl in Hhead. rewrite (Hhead eq_refl) in Hno. discriminate Hno.
Qed.

Lemma slot_kept_without_planning_witness :
  last_plan_for_a
    (snd (serve (stateless flaky) not_a_string
            [ (u8 "A", follow_up_sentence (u8 "2"));
              (u8 "B", u8 "school uniforms");
              (u8 "E", u8 "anything");
              (u8 "D", u8 "tides") ]
            {| last_plan_for_a := Some (u8 "X"); calls := [] |}))
  = Some (u8 "X").
Proof.
  apply (slot_kept_without_planning (stateless flaky) not_a_string).
  repeat constructor; simpl; intros H; try (vm_compute; reflexivity);
    vm_compute in H; discriminate H.
Defined.

(* ================================================================= *)
(** ** The last branch of the dispatcher *)

(** Called with a mode other than "A", "B" and "C", the body of [chat]
    does what it does for "D": the last branch is an [else], not a
    test for "D". *)
Theorem chat_unlisted_mode_as_d
    (remote : backend) (invalid_answer : PyException) (m text : str) (w : world) :
  m <> u8 "A" -> m <> u8 "B" -> m <> u8 "C" ->
  chat remote invalid_answer {| mode := m; user_input := text |} w
  = chat remote invalid_answer {| mode := u8 "D"; user_input := text |} w.
Proof.
  intros Ha Hb Hc. unfold chat. cbn [mode user_input].
  destruct (str_eqb m (u8 "A")) eqn:Ea; [apply str_eqb_eq in Ea; contradiction|].
  destruct (str_eqb m (u8 "B")) eqn:Eb; [apply str_eqb_eq in Eb; contradiction|].
  destruct (str_eqb m (u8 "C")) eqn:Ec; [apply str_eqb_eq in Ec; contradiction|].
  reflexivity.
Qed.

Lemma chat_unlisted_mode_as_d_witness :
  chat (stateless canned) not_a_string {| mode := u8 "a"; user_input := u8 "tides" |}
       initial_world
  = chat (stateless canned) not_a_string {| mode := u8 "D"; user_input := u8 "tides" |}
         initial_world.
Proof.
  apply (chat_unlisted_mode_as_d (stateless canned) not_a_string (u8 "a") (u8 "tides")
           initial_world);
    intros H; vm_compute in H; discriminate H.
Defined.

(* ================================================================= *)
(** ** Start-up *)

(** The service starts only with all four API keys.  If each of the
    four variables holds a non-empty string, loading returns exactly
    those values; if any of them is unset or empty, loading raises the
    [RuntimeError] with the fixed message, whatever the others hold. *)
Theorem load_api_keys_all_or_error (getenv : environ) :
  (Forall (fun name => exists c rest, getenv name = Some (c :: rest))
          KEY_NAMES ->
   load_api_keys getenv
   = Returned {| OPENAI_API_KEY := getenv (u8 "OPENAI_API_KEY");
                 GEMINI_API_KEY := getenv (u8 "GEMINI_API_KEY");
                 ANTHROPIC_API_KEY := getenv (u8 "ANTHROPIC_API_KEY");
                 PERPLEXITY_API_KEY := getenv (u8 "PERPLEXITY_API_KEY") |})
  /\
  (Exists (fun name => getenv name = None \/ getenv name = Some [])
          KEY_NAMES ->
   load_api_keys getenv = Raised {| exc_str := MISSING_KEYS_MESSAGE |}).
Proof.
  unfold KEY_NAMES, load_api_keys. split.
  - intros H.
    apply Forall_cons_iff in H. destruct H as [(c1 & r1 & E1) H].
    apply Forall_cons_iff in H. destruct H as [(c2 & r2 & E2) H].
    apply Forall_cons_iff in H. destruct H as [(c3 & r3 & E3) H].
    apply Forall_cons_iff in H. destruct H as [(c4 & r4 & E4) _].
    rewrite E1, E2, E3, E4. reflexivity.
  - intros H.
    destruct (getenv (u8 "OPENAI_API_KEY")) as [[|c1 r1]|] eqn:E1;
      try reflexivity.
    destruct (getenv (u8 "GEMINI_API_KEY")) as [[|c2 r2]|] eqn:E2;
      try reflexivity.
    destruct (getenv (u8 "ANTHROPIC_API_KEY")) as [[|c3 r3]|] eqn:E3;
      try reflexivity.
    destruct (getenv (u8 "PERPLEXITY_API_KEY")) as [[|c4 r4]|] eqn:E4;
      try reflexivity.
    exfalso.
    repeat (apply Exists_cons in H; destruct H as [[H|H]|H];
            [congruence | congruence |]).
    inversion H.
Qed.

Lemma load_api_keys_all_or_error_witness :
  load_api_keys
    (fun name => if str_eqb name (u8 "GEMINI_API_KEY")
                 then Some [] else Some (u8 "sk-test"))
  = Raised {| exc_str := MISSING_KEYS_MESSAGE |}.
Proof.
  apply (proj2 (load_api_keys_all_or_error
                  (fun name => if str_eqb name (u8 "GEMINI_API_KEY")
                               then Some [] else Some (u8 "sk-test")))).
  unfold KEY_NAMES. apply Exists_cons_tl. apply Exists_cons_hd.
  right. reflexivity.
Defined.

(* ================================================================= *)
(** ** The plan slot is the only memory *)

Section Memory.

Variable r : provider -> str -> result (option str).
Variable invalid_answer : PyException.

Ltac free_of_world :=
  unfold call_perplexity, call_gpt, call_gemini, call_claude;
  repeat first
    [ apply world_free_ret
    | apply world_free_call_provider
    | apply world_free_bind; [| intro] ].

Lemma handle_mode_a_plan_world_free text :
  world_free (handle_mode_a_plan (stateless r) text).
Proof. unfold handle_mode_a_plan. free_of_world. Qed.

Lemma handle_mode_a_report_world_free text stored :
  world_free (handle_mode_a_report (stateless r) text stored).
Proof. unfold handle_mode_a_report. free_of_world. Qed.

Lemma handle_mode_c_ideas_world_free text :
  world_free (handle_mode_c_ideas (stateless r) text).
Proof. unfold handle_mode_c_ideas. free_of_world. Qed.

Lemma handle_mode_d_research_world_free text :
  world_free (handle_mode_d_research (stateless r) text).
Proof. unfold handle_mode_d_research. free_of_world. Qed.

Lemma response_same_memory (m : M (option str)) (w1 w2 : world) :
  world_free m -> traced m ->
  last_plan_for_a w1 = last_plan_for_a w2 ->
  fst (respond invalid_answer (m w1)) = fst (respond invalid_answer (m w2))
  /\ last_plan_for_a (snd (respond invalid_answer (m w1)))
     = last_plan_for_a (snd (respond invalid_answer (m w2))).
Proof.
  intros Hfree Htraced Hslot.
  pose proof (Hfree w1 w2) as Hres.
  pose proof (traced_keeps_plan m w1 Htraced) as H1.
  pose proof (traced_keeps_plan m w2 Htraced) as H2.
  rewrite !respond_snd.
  destruct (m w1) as [[[a1|]|e1] w1'], (m w2) as [[[a2|]|e2] w2'];
    simpl in *; try discriminate Hres; try injection Hres as ->;
    (split; [reflexivity | congruence]).
Qed.

Lemma chat_same_memory (req : ChatRequest) (w1 w2 : world) :
  last_plan_for_a w1 = last_plan_for_a w2 ->
  fst (chat (stateless r) invalid_answer req w1)
  = fst (chat (stateless r) invalid_answer req w2)
  /\ last_plan_for_a (snd (chat (stateless r) invalid_answer req w1))
     = last_plan_for_a (snd (chat (stateless r) invalid_answer req w2)).
Proof.
  intros Hslot. rewrite !chat_respond.
  destruct (str_eqb (mode req) (u8 "A"));
    [ destruct (is_report_request (user_input req))
    | destruct (str_eqb (mode req) (u8 "B"));
      [ | destruct (str_eqb (mode req) (u8 "C")) ] ].
  - rewrite !read_bind, <- Hslot.
    destruct (last_plan_for_a w1) as [stored|] eqn:E.
    + apply (response_same_memory _ w1 w2
               (handle_mode_a_report_world_free _ _)
               (handle_mode_a_report_traced _ _ _)).
      now rewrite <- Hslot.
    + simpl. split; [reflexivity | congruence].
  - rewrite !store_bind, !respond_snd.
    pose proof (handle_mode_a_plan_world_free (user_input req) w1 w2) as Hres.
    pose proof (traced_keeps_plan _ w1
                  (handle_mode_a_plan_traced (stateless r) (user_input req)))
      as H1.
    pose proof (traced_keeps_plan _ w2
                  (handle_mode_a_plan_traced (stateless r) (user_input req)))
      as H2.
    destruct (handle_mode_a_plan (stateless r) (user_input req) w1)
      as [[[a1|]|e1] w1'],
             (handle_mode_a_plan (stateless r) (user_input req) w2)
      as [[[a2|]|e2] w2'];
      simpl in *; try discriminate Hres; try injection Hres as ->;
      (split; [reflexivity | congruence]).
  - apply (response_same_memory _ w1 w2
             (handle_mode_b_essay_world_free r _)
             (handle_mode_b_essay_traced _ _) Hslot).
  - apply (response_same_memory _ w1 w2
             (handle_mode_c_ideas_world_free _)
             (handle_mode_c_ideas_traced _ _) Hslot).
  - apply (response_same_memory _ w1 w2
             (handle_mode_d_research_world_free _)
             (handle_mode_d_research_traced _ _) Hslot).
Qed.

End Memory.

Lemma serve_same_memory (r : provider -> str -> result (option str))
    (invalid_answer : PyException)
    (reqs : list (str * str)) (w1 w2 : world) :
  last_plan_for_a w1 = last_plan_for_a w2 ->
  fst (serve (stateless r) invalid_answer reqs w1)
  = fst (serve (stateless r) invalid_answer reqs w2)
  /\ last_plan_for_a (snd (serve (stateless r) invalid_answer reqs w1))
     = last_plan_for_a (snd (serve (stateless r) invalid_answer reqs w2)).
Proof.
  revert w1 w2. induction reqs as [|[m t] rest IH]; intros w1 w2 Hslot.
  - split; [reflexivity | exact Hslot].
  - assert (Hstep :
      fst (post_chat (stateless r) invalid_answer m t w1)
      = fst (post_chat (stateless r) invalid_answer m t w2)
      /\ last_plan_for_a (snd (post_chat (stateless r) invalid_answer m t w1))
         = last_plan_for_a (snd (post_chat (stateless r) invalid_answer m t w2))).
    { unfold post_chat. destruct (validate_ChatRequest m t) as [req|].
      - now apply chat_same_memory.
      - split; [reflexivity | exact Hslot]. }
    destruct Hstep as [Hresp Hnext]. specialize (IH _ _ Hnext).
    cbn [serve].
    destruct (post_chat (stateless r) invalid_answer m t w1) as [r1 w1'],
             (post_chat (stateless r) invalid_answer m t w2) as [r2 w2'].
    simpl in Hresp, IH. subst r2.
    destruct (serve (stateless r) invalid_answer rest w1') as [rs1 w1''],
             (serve (stateless r) invalid_answer rest w2') as [rs2 w2''].
    simpl in IH |- *. destruct IH as [-> Hplan].
    split; [reflexivity | exact Hplan].
Qed.

(** Between requests nothing but the plan slot is remembered: with
    providers that answer by provider and prompt alone, two processes
    that hold the same plan give the same responses to the same sequence
    of requests and end with the same plan, whatever they served
    before. *)
Theorem slot_is_the_only_memory
    (r : provider -> str -> result (option str))
    (invalid_answer : PyException)
    (reqs : list (str * str)) (w1 w2 : world) :
  last_plan_for_a w1 = last_plan_for_a w2 ->
  fst (serve (stateless r) invalid_answer reqs w1)
  = fst (serve (stateless r) invalid_answer reqs w2)
  /\ last_plan_for_a (snd (serve (stateless r) invalid_answer reqs w1))
     = last_plan_for_a (snd (serve (stateless r) invalid_answer reqs w2)).
Proof. exact (serve_same_memory r invalid_answer reqs w1 w2). Qed.

Lemma slot_is_the_only_memory_witness :
  fst (serve (stateless canned) not_a_string
         [(u8 "A", u8 "pollution"); (u8 "A", follow_up_sentence (u8 "1"))]
         initial_world)
  = fst (serve (stateless canned) not_a_string
           [(u8 "A", u8 "pollution"); (u8 "A", follow_up_sentence (u8 "1"))]
           (extend initial_world
              (research_trace (u8 "tides") (u8 "BG") (u8 "PLAN_OUT")))).
Proof.
  apply (slot_is_the_only_memory canned not_a_string
           [(u8 "A", u8 "pollution"); (u8 "A", follow_up_sentence (u8 "1"))]
           initial_world
           (extend initial_world
              (research_trace (u8 "tides") (u8 "BG") (u8 "PLAN_OUT")))).
  reflexivity.
Defined.
